(** * The Cloud Map HTTP namespace resource

    A shallow embedding of
    [aws/resource_aws_service_discovery_http_namespace.go]: the schema and
    the four lifecycle callbacks (Create, Read, Update, Delete) of the
    [aws_service_discovery_http_namespace] resource, together with the
    properties of the callbacks.

    The callbacks are glue: they read fields of a [*schema.ResourceData],
    call the service client, the operation waiter and the tag helpers, and
    write fields back.  The collaborators are not part of the file, so the
    callbacks are embedded over an arbitrary [Client]: every theorem holds
    for every behaviour of the remote side.  Each collaborator call is
    recorded in a trace, which is what the statements about "which calls
    are made" talk about. *)

From Stdlib Require Import String List.
From stdpp Require Import base option gmap strings list fin_maps.

Local Open Scope string_scope.

(** ** Errors *)

(** A Go [error] value.  [AwsError] is an [awserr.Error] (code and
    message); [Errorf] and [Wrapf] are results of [fmt.Errorf]:
    [Errorf] holds the formatted text, [Wrapf] (a format with [%w]) also
    the wrapped cause. *)
Inductive error : Type :=
| AwsError (code message : string)
| OtherError (message : string)
| Errorf (text : string)
| Wrapf (text : string) (cause : error).

(** [err.Error()]. *)
Definition Error (e : error) : string :=
  match e with
  | AwsError code message => code ++ ": " ++ message
  | OtherError message => message
  | Errorf text => text
  | Wrapf text _ => text
  end.

(** [strings.Contains s sub]. *)
Fixpoint Contains (s sub : string) : bool :=
  String.prefix sub s ||
  match s with
  | EmptyString => false
  | String _ s' => Contains s' sub
  end.

(** Modelled from the spec: the error classifier [isAWSErr] lives in
    [aws/awserr.go], which is not part of the slice.  The spec's "error-code
    string matching against the remote API": an error is of the given kind
    when it is (or wraps) an AWS error with that code whose message
    contains the given text.  A nil error is of no kind. *)
Fixpoint isAWSErr_of (e : error) (code message : string) : bool :=
  match e with
  | AwsError c m => bool_decide (c = code) && Contains m message
  | OtherError _ => false
  | Errorf _ => false
  | Wrapf _ cause => isAWSErr_of cause code message
  end.

Definition isAWSErr (err : option error) (code message : string) : bool :=
  match err with
  | None => false
  | Some e => isAWSErr_of e code message
  end.

(** [servicediscovery.ErrCodeNamespaceNotFound] *)
Definition ErrCodeNamespaceNotFound : string := "NamespaceNotFound".
(** [servicediscovery.OperationTargetTypeNamespace] *)
Definition OperationTargetTypeNamespace : string := "NAMESPACE".

(** [aws.StringValue]: the pointed-to string, or the empty string for nil. *)
Definition StringValue (p : option string) : string := default "" p.

(** ** Tags *)

(** [keyvaluetags.KeyValueTags]: a mapping from tag key to tag value. *)
Abbreviation KeyValueTags := (gmap string string).

(** [servicediscovery.Tag] *)
Record Tag := { Key : string; Value : string }.

(** [keyvaluetags.IgnoreConfig]: the provider-wide ignore rules. *)
Record IgnoreConfig := {
  Keys : list string;
  KeyPrefixes : list string;
}.

Module keyvaluetags.

(** Modelled from the spec: the package [aws/internal/keyvaluetags] is
    not part of the slice.  The spec's tag synchronizer contract: "tag
    values pass through an ignore filter keyed by a provider-wide ignore
    configuration", and tags matching an ignore rule are invisible to the
    local record.  [IgnoreConfig] is that filter.  [IgnoreAws], which the
    callbacks apply whatever the configuration is, is the rule for the
    tags the service manages itself: the keys starting with [aws:]. *)
Definition AwsTagKeyPrefix : string := "aws:".

Definition IgnorePrefixes (prefixes : list string) (tags : KeyValueTags)
  : KeyValueTags :=
  filter (λ kv, forallb (λ p, negb (String.prefix p kv.1)) prefixes = true) tags.

Definition Ignore (keys : list string) (tags : KeyValueTags) : KeyValueTags :=
  filter (λ kv, kv.1 ∉ keys) tags.

Definition IgnoreAws (tags : KeyValueTags) : KeyValueTags :=
  IgnorePrefixes [AwsTagKeyPrefix] tags.

(** A nil configuration ignores nothing. *)
Definition IgnoreConfig (config : option IgnoreConfig) (tags : KeyValueTags)
  : KeyValueTags :=
  match config with
  | None => tags
  | Some c => Ignore (Keys c) (IgnorePrefixes (KeyPrefixes c) tags)
  end.

(** [ServicediscoveryTags]: the mapping as a slice of service tags.  Go
    iterates the map in no particular order; [map_to_list] is one. *)
Definition ServicediscoveryTags (tags : KeyValueTags) : list Tag :=
  (λ kv, {| Key := kv.1; Value := kv.2 |}) <$> map_to_list tags.

(** [ServicediscoveryKeyValueTags]: a slice of service tags as a mapping. *)
Definition ServicediscoveryKeyValueTags (tags : list Tag) : KeyValueTags :=
  list_to_map ((λ t, (Key t, Value t)) <$> tags).

End keyvaluetags.

(** ** The schema *)

Inductive ValueType := TypeString | TypeMap.

(** [schema.Schema], with the fields the resource uses.  [ValidateFunc]
    is kept as the name of the validator. *)
Record Schema := {
  Type_ : ValueType;
  Required : bool;
  Optional : bool;
  ForceNew : bool;
  Computed : bool;
  ValidateFunc : option string;
}.

(** Modelled from the spec: [tagsSchema] is declared in another file of the
    package; "tags (optional, mutable mapping)". *)
Definition tagsSchema : Schema :=
  {| Type_ := TypeMap; Required := false; Optional := true;
     ForceNew := false; Computed := false; ValidateFunc := None |}.

(** The [Schema] field of [resourceAwsServiceDiscoveryHttpNamespace]. *)
Definition resourceAwsServiceDiscoveryHttpNamespace_Schema : gmap string Schema :=
  {[ "name" :=
       {| Type_ := TypeString; Required := true; Optional := false;
          ForceNew := true; Computed := false;
          ValidateFunc := Some "validateServiceDiscoveryHttpNamespaceName" |};
     "description" :=
       {| Type_ := TypeString; Required := false; Optional := true;
          ForceNew := true; Computed := false; ValidateFunc := None |};
     "tags" := tagsSchema;
     "arn" :=
       {| Type_ := TypeString; Required := false; Optional := false;
          ForceNew := false; Computed := true; ValidateFunc := None |} ]}.

(** ** The local state record *)

(** The attributes of the resource, one field per schema entry.  A string
    attribute that is unset is [None]; an unset map reads as the empty map. *)
Record Attrs := {
  name : option string;
  description : option string;
  tags : KeyValueTags;
  arn : option string;
}.

(** [*schema.ResourceData]: the identity and three views of the attributes:
    the prior state, the planned values (state overlaid with the diff), and
    the merged view, which also holds what the callback wrote with [Set]. *)
Record ResourceData := {
  identity : string;
  state : Attrs;
  planned : Attrs;
  merged : Attrs;
}.

Module d.

Definition Id (d : ResourceData) : string := identity d.

Definition SetId (v : string) (d : ResourceData) : ResourceData :=
  {| identity := v; state := state d; planned := planned d; merged := merged d |}.

(** [d.Get("name").(string)]: an unset string reads as its zero value. *)
Definition Get_name (d : ResourceData) : string := StringValue (name (merged d)).
Definition Get_arn (d : ResourceData) : string := StringValue (arn (merged d)).
Definition Get_tags (d : ResourceData) : KeyValueTags := tags (merged d).

(** [d.GetOk("description")]: the value, and whether it is set to
    something other than the zero value. *)
Definition GetOk_description (d : ResourceData) : string * bool :=
  let v := StringValue (description (merged d)) in
  (v, negb (bool_decide (v = ""))).

(** [d.GetChange("tags")]: the value in the prior state and the planned
    one.  Values written with [Set] are not seen here. *)
Definition GetChange_tags (d : ResourceData) : KeyValueTags * KeyValueTags :=
  (tags (state d), tags (planned d)).

(** [d.HasChange("tags")]: the two values of [GetChange] differ. *)
Definition HasChange_tags (d : ResourceData) : bool :=
  let '(o, n) := GetChange_tags d in negb (bool_decide (o = n)).

Definition with_merged (f : Attrs → Attrs) (d : ResourceData) : ResourceData :=
  {| identity := identity d; state := state d; planned := planned d; merged := f (merged d) |}.

(** [d.Set] of a [*string]: a nil pointer unsets the attribute. *)
Definition Set_name (v : option string) : ResourceData → ResourceData :=
  with_merged (λ a, {| name := v; description := description a;
                       tags := tags a; arn := arn a |}).
Definition Set_description (v : option string) : ResourceData → ResourceData :=
  with_merged (λ a, {| name := name a; description := v;
                       tags := tags a; arn := arn a |}).
(** [d.Set] of a [string]. *)
Definition Set_arn (v : string) : ResourceData → ResourceData :=
  with_merged (λ a, {| name := name a; description := description a;
                       tags := tags a; arn := Some v |}).
(** [d.Set("tags", m)] with a [map[string]string]: the schema takes a map
    of strings, so the write is accepted. *)
Definition Set_tags (v : KeyValueTags) (d : ResourceData)
  : option error * ResourceData :=
  (None, with_merged (λ a, {| name := name a; description := description a;
                              tags := v; arn := arn a |}) d).

End d.

(** ** The service client and its collaborators *)

Record CreateHttpNamespaceInput := {
  cni_Name : option string;
  cni_Description : option string;
  cni_Tags : list Tag;
  cni_CreatorRequestId : option string;
}.
Record CreateHttpNamespaceOutput := { cno_OperationId : option string }.

Record GetNamespaceInput := { gni_Id : option string }.
Record Namespace := {
  ns_Arn : option string;
  ns_Name : option string;
  ns_Description : option string;
}.
Record GetNamespaceOutput := { gno_Namespace : option Namespace }.

Record DeleteNamespaceInput := { dni_Id : option string }.
Record DeleteNamespaceOutput := { dno_OperationId : option string }.

(** [servicediscovery.Operation]: [Targets] maps a target type to a
    [*string]. *)
Record Operation := { Targets : gmap string (option string) }.
Record GetOperationOutput := { goo_Operation : option Operation }.

(** What the callbacks call, over a remote side with states [W].  A Go
    call returning [(output, err)] returns the pair as it is: the output
    pointer may be nil whatever the error is.
    [OperationSuccess] is [waiter.OperationSuccess], [ListTags] is
    [keyvaluetags.ServicediscoveryListTags], [UpdateTags] is
    [keyvaluetags.ServicediscoveryUpdateTags] and [UniqueId] is
    [resource.UniqueId]. *)
Record Client (W : Type) := {
  UniqueId : W → string * W;
  CreateHttpNamespace :
    CreateHttpNamespaceInput → W → (option CreateHttpNamespaceOutput * option error) * W;
  GetNamespace :
    GetNamespaceInput → W → (option GetNamespaceOutput * option error) * W;
  DeleteNamespace :
    DeleteNamespaceInput → W → (option DeleteNamespaceOutput * option error) * W;
  OperationSuccess :
    string → W → (option GetOperationOutput * option error) * W;
  ListTags : string → W → (KeyValueTags * option error) * W;
  UpdateTags : string → KeyValueTags → KeyValueTags → W → option error * W;
}.
Arguments UniqueId {W}.
Arguments CreateHttpNamespace {W}.
Arguments GetNamespace {W}.
Arguments DeleteNamespace {W}.
Arguments OperationSuccess {W}.
Arguments ListTags {W}.
Arguments UpdateTags {W}.

(** [*AWSClient], the [meta] argument of the callbacks. *)
Record AWSClient (W : Type) := {
  sdconn : Client W;
  IgnoreTagsConfig : option IgnoreConfig;
}.
Arguments sdconn {W}.
Arguments IgnoreTagsConfig {W}.

(** A call made to a collaborator, with its arguments. *)
Inductive Call :=
| CreateHttpNamespaceCall (input : CreateHttpNamespaceInput)
| GetNamespaceCall (input : GetNamespaceInput)
| DeleteNamespaceCall (input : DeleteNamespaceInput)
| OperationSuccessCall (operationId : string)
| ListTagsCall (arn : string)
| UpdateTagsCall (arn : string) (o n : KeyValueTags).

(** ** Callbacks as programs *)

(** What a callback runs in: the remote side, the calls made so far (the
    latest last) and the resource data it was handed. *)
Record Env (W : Type) := {
  world : W;
  trace : list Call;
  data : ResourceData;
}.
Arguments world {W}.
Arguments trace {W}.
Arguments data {W}.

(** The result of a step of a callback: it goes on with a value, the
    callback returns ([Return err], with [None] for a nil error), or the
    program panics (a nil pointer is dereferenced). *)
Inductive Res (A : Type) :=
| Val (a : A)
| Return (err : option error)
| Panic.
Arguments Val {A}.
Arguments Return {A}.
Arguments Panic {A}.

Definition Cb (W A : Type) : Type := Env W → Res A * Env W.

Section Monad.
Context {W : Type}.

Definition ret {A} (a : A) : Cb W A := λ s, (Val a, s).

Definition bind {A B} (m : Cb W A) (f : A → Cb W B) : Cb W B :=
  λ s, match m s with
       | (Val a, s') => f a s'
       | (Return err, s') => (Return err, s')
       | (Panic, s') => (Panic, s')
       end.

(** [return err] *)
Definition return_ {A} (err : option error) : Cb W A := λ s, (Return err, s).

Definition panic {A} : Cb W A := λ s, (Panic, s).

(** The resource data [d] points to. *)
Definition get_d : Cb W ResourceData := λ s, (Val (data s), s).

Definition update_d (f : ResourceData → ResourceData) : Cb W unit :=
  λ s, (Val tt, {| world := world s; trace := trace s; data := f (data s) |}).

(** A write to [d] that returns a value. *)
Definition update_d' {A} (f : ResourceData → A * ResourceData) : Cb W A :=
  λ s, let '(a, d') := f (data s) in
       (Val a, {| world := world s; trace := trace s; data := d' |}).

(** A collaborator call: recorded, then answered by the remote side. *)
Definition call {A} (c : Call) (f : W → A * W) : Cb W A :=
  λ s, let '(a, w') := f (world s) in
       (Val a, {| world := w'; trace := trace s ++ [c]; data := data s |}).

(** A call that is not traced ([resource.UniqueId]). *)
Definition local {A} (f : W → A * W) : Cb W A :=
  λ s, let '(a, w') := f (world s) in
       (Val a, {| world := w'; trace := trace s; data := data s |}).

(** Dereferencing a pointer. *)
Definition deref {A} (p : option A) : Cb W A :=
  match p with
  | Some a => ret a
  | None => panic
  end.

End Monad.

(** The programs use stdpp's monad notations: [x ← m; k], ['(x, y) ← m; k]
    and [m;; k]. *)
#[export] Instance Cb_ret {W} : MRet (Cb W) := λ A, ret.
#[export] Instance Cb_bind {W} : MBind (Cb W) := λ A B f m, bind m f.

(** How a callback ends. *)
Inductive outcome :=
| Done (err : option error)
| Crash.

(** Running a callback body: a body never falls off its end, it returns. *)
Definition run {W} (body : Cb W Empty_set) (s : Env W) : outcome * Env W :=
  match body s with
  | (Val a, _) => match a with end
  | (Return err, s') => (Done err, s')
  | (Panic, s') => (Crash, s')
  end.

(** The environment a callback is invoked in. *)
Definition start {W} (w : W) (d : ResourceData) : Env W :=
  {| world := w; trace := []; data := d |}.

(** ** The callbacks *)

(** The [input] that Create builds from [d]: the name, the tags without
    the reserved ones, the request id [uid] drawn from [resource.UniqueId],
    and the description when [d.GetOk] finds one. *)
Definition CreateHttpNamespaceInput_of (d : ResourceData) (uid : string)
  : CreateHttpNamespaceInput :=
  let name := d.Get_name d in
  let input :=
    {| cni_Name := Some name;
       cni_Description := None;
       cni_Tags := keyvaluetags.ServicediscoveryTags
                     (keyvaluetags.IgnoreAws (d.Get_tags d));
       cni_CreatorRequestId := Some uid |} in
  let '(v, ok) := d.GetOk_description d in
  if ok then
    {| cni_Name := cni_Name input; cni_Description := Some v;
       cni_Tags := cni_Tags input;
       cni_CreatorRequestId := cni_CreatorRequestId input |}
  else input.
Arguments CreateHttpNamespaceInput_of : simpl never.

Section Callbacks.
Context {W : Type}.
Variable meta : AWSClient W.

Definition resourceAwsServiceDiscoveryHttpNamespaceRead : Cb W Empty_set :=
  let conn := sdconn meta in
  let ignoreTagsConfig := IgnoreTagsConfig meta in
  d ← get_d;
  let input := {| gni_Id := Some (d.Id d) |} in
  '(resp, err) ← call (GetNamespaceCall input) (GetNamespace conn input);
  match err with
  | Some e =>
      if isAWSErr err ErrCodeNamespaceNotFound "" then
        update_d (d.SetId "") ;;
        return_ None
      else
        d ← get_d;
        return_ (Some (Errorf
          ("error reading Service Discovery HTTP Namespace (" ++ d.Id d ++ "): "
             ++ Error e)))
  | None =>
      resp ← deref resp;
      ns ← deref (gno_Namespace resp);
      let arn := StringValue (ns_Arn ns) in
      update_d (d.Set_name (ns_Name ns)) ;;
      update_d (d.Set_description (ns_Description ns)) ;;
      update_d (d.Set_arn arn) ;;
      '(tags, err) ← call (ListTagsCall arn) (ListTags conn arn);
      match err with
      | Some e =>
          return_ (Some (Errorf
            ("error listing tags for resource (" ++ arn ++ "): " ++ Error e)))
      | None =>
          err ← update_d' (d.Set_tags
            (keyvaluetags.IgnoreConfig ignoreTagsConfig (keyvaluetags.IgnoreAws tags)));
          match err with
          | Some e => return_ (Some (Errorf ("error setting tags: " ++ Error e)))
          | None => return_ None
          end
      end
  end.

Definition resourceAwsServiceDiscoveryHttpNamespaceCreate : Cb W Empty_set :=
  let conn := sdconn meta in
  d ← get_d;
  let name := d.Get_name d in
  uid ← local (UniqueId conn);
  let input := CreateHttpNamespaceInput_of d uid in
  '(output, err) ← call (CreateHttpNamespaceCall input) (CreateHttpNamespace conn input);
  match err with
  | Some e =>
      return_ (Some (Wrapf
        ("error creating Service Discovery HTTP Namespace (" ++ name ++ "): "
           ++ Error e) e))
  | None =>
      match output ≫= cno_OperationId with
      | None =>
          return_ (Some (Errorf
            ("error creating Service Discovery HTTP Namespace (" ++ name
               ++ "): creation response missing Operation ID")))
      | Some operationId =>
          '(operationOutput, err) ←
            call (OperationSuccessCall operationId) (OperationSuccess conn operationId);
          match err with
          | Some e =>
              return_ (Some (Wrapf
                ("error waiting for Service Discovery HTTP Namespace (" ++ name
                   ++ ") creation: " ++ Error e) e))
          | None =>
              match operationOutput ≫= goo_Operation with
              | None =>
                  return_ (Some (Errorf
                    ("error creating Service Discovery HTTP Namespace (" ++ name
                       ++ "): operation response missing Operation information")))
              | Some operation =>
                  match Targets operation !! OperationTargetTypeNamespace with
                  | None =>
                      return_ (Some (Errorf
                        ("error creating Service Discovery HTTP Namespace (" ++ name
                           ++ "): operation response missing Namespace ID")))
                  | Some namespaceID =>
                      update_d (d.SetId (StringValue namespaceID)) ;;
                      resourceAwsServiceDiscoveryHttpNamespaceRead
                  end
              end
          end
      end
  end.

Definition resourceAwsServiceDiscoveryHttpNamespaceUpdate : Cb W Empty_set :=
  let conn := sdconn meta in
  d ← get_d;
  (if d.HasChange_tags d then
     let '(o, n) := d.GetChange_tags d in
     err ← call (UpdateTagsCall (d.Get_arn d) o n) (UpdateTags conn (d.Get_arn d) o n);
     match err with
     | Some e =>
         return_ (Some (Errorf
           ("error updating Service Discovery HTTP Namespace (" ++ d.Id d
              ++ ") tags: " ++ Error e)))
     | None => ret tt
     end
   else ret tt) ;;
  resourceAwsServiceDiscoveryHttpNamespaceRead.

Definition resourceAwsServiceDiscoveryHttpNamespaceDelete : Cb W Empty_set :=
  let conn := sdconn meta in
  d ← get_d;
  let input := {| dni_Id := Some (d.Id d) |} in
  '(output, err) ← call (DeleteNamespaceCall input) (DeleteNamespace conn input);
  if isAWSErr err ErrCodeNamespaceNotFound "" then
    return_ None
  else
    match err with
    | Some e =>
        return_ (Some (Wrapf
          ("error deleting Service Discovery HTTP Namespace (" ++ d.Id d ++ "): "
             ++ Error e) e))
    | None =>
        match output ≫= dno_OperationId with
        | Some operationId =>
            '(_, err) ←
              call (OperationSuccessCall operationId) (OperationSuccess conn operationId);
            match err with
            | Some e =>
                return_ (Some (Wrapf
                  ("error waiting for Service Discovery HTTP Namespace (" ++ d.Id d
                     ++ ") deletion: " ++ Error e) e))
            | None => return_ None
            end
        | None => return_ None
        end
    end.

End Callbacks.

(** The four callbacks, as the resource registers them. *)
Abbreviation Create := resourceAwsServiceDiscoveryHttpNamespaceCreate.
Abbreviation Read := resourceAwsServiceDiscoveryHttpNamespaceRead.
Abbreviation Update := resourceAwsServiceDiscoveryHttpNamespaceUpdate.
Abbreviation Delete := resourceAwsServiceDiscoveryHttpNamespaceDelete.

(** ** An in-memory remote side

    Modelled from the spec: the remote API, the waiter and the tag
    synchronizer are external to the file.  This is the smallest remote
    side that follows the spec's contracts (create yields an operation
    whose targets name the new namespace, get and delete report not-found
    for an unknown id, tags are kept per ARN); the theorems do not depend
    on it, it provides concrete runs. *)
Module CloudMap.

Record world := {
  namespaces : gmap string Namespace;
  tagstore : gmap string KeyValueTags;
  operations : gmap string Operation;
  issued : nat;
}.

Definition empty : world :=
  {| namespaces := ∅; tagstore := ∅; operations := ∅; issued := 0 |}.

Definition NotFound : error :=
  AwsError ErrCodeNamespaceNotFound "Namespace not found".

Definition uniqueId (w : world) : string * world :=
  ("terraform-" ++ String.concat "" (replicate (issued w) "0"),
   {| namespaces := namespaces w; tagstore := tagstore w;
      operations := operations w; issued := S (issued w) |}).

Definition createHttpNamespace (input : CreateHttpNamespaceInput) (w : world)
  : (option CreateHttpNamespaceOutput * option error) * world :=
  let nsid := "ns-" ++ StringValue (cni_Name input) in
  let arn := "arn:aws:servicediscovery:namespace/" ++ nsid in
  let opid := "op-" ++ StringValue (cni_CreatorRequestId input) in
  ((Some {| cno_OperationId := Some opid |}, None),
   {| namespaces :=
        <[nsid := {| ns_Arn := Some arn; ns_Name := cni_Name input;
                     ns_Description := cni_Description input |}]> (namespaces w);
      tagstore :=
        <[arn := keyvaluetags.ServicediscoveryKeyValueTags (cni_Tags input)]> (tagstore w);
      operations :=
        <[opid := {| Targets := {[ OperationTargetTypeNamespace := Some nsid ]} |}]>
          (operations w);
      issued := issued w |}).

Definition getNamespace (input : GetNamespaceInput) (w : world)
  : (option GetNamespaceOutput * option error) * world :=
  match namespaces w !! StringValue (gni_Id input) with
  | Some ns => ((Some {| gno_Namespace := Some ns |}, None), w)
  | None => ((None, Some NotFound), w)
  end.

Definition deleteNamespace (input : DeleteNamespaceInput) (w : world)
  : (option DeleteNamespaceOutput * option error) * world :=
  let nsid := StringValue (dni_Id input) in
  match namespaces w !! nsid with
  | Some ns =>
      let opid := "op-delete-" ++ nsid in
      ((Some {| dno_OperationId := Some opid |}, None),
       {| namespaces := delete nsid (namespaces w);
          tagstore := delete (StringValue (ns_Arn ns)) (tagstore w);
          operations := <[opid := {| Targets := ∅ |}]> (operations w);
          issued := issued w |})
  | None => ((None, Some NotFound), w)
  end.

Definition operationSuccess (operationId : string) (w : world)
  : (option GetOperationOutput * option error) * world :=
  match operations w !! operationId with
  | Some op => ((Some {| goo_Operation := Some op |}, None), w)
  | None => ((None, Some (AwsError "OperationNotFound" "Operation not found")), w)
  end.

Definition listTags (arn : string) (w : world)
  : (KeyValueTags * option error) * world :=
  match tagstore w !! arn with
  | Some t => ((t, None), w)
  | None => ((∅, Some (AwsError "ResourceNotFoundException" "no such resource")), w)
  end.

(** The keys of [o] that [n] lacks are removed, the entries of [n] are
    set; reserved keys are left alone. *)
Definition updateTags (arn : string) (o n : KeyValueTags) (w : world)
  : option error * world :=
  match tagstore w !! arn with
  | Some t =>
      let removed := keyvaluetags.IgnoreAws (filter (λ kv, n !! kv.1 = None) o) in
      let updated := keyvaluetags.IgnoreAws n in
      (None,
       {| namespaces := namespaces w;
          tagstore := <[arn := updated ∪ filter (λ kv, removed !! kv.1 = None) t]> (tagstore w);
          operations := operations w; issued := issued w |})
  | None => (Some (AwsError "ResourceNotFoundException" "no such resource"), w)
  end.

Definition client : Client world :=
  {| UniqueId := uniqueId;
     CreateHttpNamespace := createHttpNamespace;
     GetNamespace := getNamespace;
     DeleteNamespace := deleteNamespace;
     OperationSuccess := operationSuccess;
     ListTags := listTags;
     UpdateTags := updateTags |}.

Definition meta : AWSClient world :=
  {| sdconn := client; IgnoreTagsConfig := None |}.

(** A remote side whose reads lag behind its writes: the namespace that
    a completed operation reports is not visible to [GetNamespace] yet. *)
Definition lagging : AWSClient world :=
  {| sdconn :=
       {| UniqueId := uniqueId;
          CreateHttpNamespace := createHttpNamespace;
          GetNamespace := λ _ w, ((None, Some NotFound), w);
          DeleteNamespace := deleteNamespace;
          OperationSuccess := operationSuccess;
          ListTags := listTags;
          UpdateTags := updateTags |};
     IgnoreTagsConfig := None |}.

(** The waiter finds that the operation failed. *)
Definition failing : AWSClient world :=
  {| sdconn :=
       {| UniqueId := uniqueId;
          CreateHttpNamespace := createHttpNamespace;
          GetNamespace := getNamespace;
          DeleteNamespace := deleteNamespace;
          OperationSuccess :=
            λ _ w, ((None, Some (OtherError "operation status: FAIL")), w);
          ListTags := listTags;
          UpdateTags := updateTags |};
     IgnoreTagsConfig := None |}.

(** The create call answers without an operation ID. *)
Definition silent : AWSClient world :=
  {| sdconn :=
       {| UniqueId := uniqueId;
          CreateHttpNamespace :=
            λ _ w, ((Some {| cno_OperationId := None |}, None), w);
          GetNamespace := getNamespace;
          DeleteNamespace := deleteNamespace;
          OperationSuccess := operationSuccess;
          ListTags := listTags;
          UpdateTags := updateTags |};
     IgnoreTagsConfig := None |}.

(** Every call of the service is refused for another reason than absence. *)
Definition Throttled : error := AwsError "ThrottlingException" "Rate exceeded".

Definition throttled : AWSClient world :=
  {| sdconn :=
       {| UniqueId := uniqueId;
          CreateHttpNamespace := λ _ w, ((None, Some Throttled), w);
          GetNamespace := λ _ w, ((None, Some Throttled), w);
          DeleteNamespace :=
            λ _ w, ((Some {| dno_OperationId := Some "op-refused" |}, Some Throttled), w);
          OperationSuccess := operationSuccess;
          ListTags := listTags;
          UpdateTags := updateTags |};
     IgnoreTagsConfig := None |}.

(** Answers that carry no error and no content: the fetch yields an output
    without a namespace, the waiter an output without an operation. *)
Definition hollow : AWSClient world :=
  {| sdconn :=
       {| UniqueId := uniqueId;
          CreateHttpNamespace := createHttpNamespace;
          GetNamespace := λ _ w, ((Some {| gno_Namespace := None |}, None), w);
          DeleteNamespace := deleteNamespace;
          OperationSuccess := λ _ w, ((Some {| goo_Operation := None |}, None), w);
          ListTags := listTags;
          UpdateTags := updateTags |};
     IgnoreTagsConfig := None |}.

(** The standard remote side under a provider that ignores the key [env]
    and the keys starting with [kubernetes.io/]. *)
Definition ignoring : AWSClient world :=
  {| sdconn := client;
     IgnoreTagsConfig :=
       Some {| Keys := ["env"]; KeyPrefixes := ["kubernetes.io/"] |} |}.

(** A fresh resource as Create receives it: no identity, no prior state,
    the configured values planned. *)
Definition fresh (a : Attrs) : ResourceData :=
  {| identity := "";
     state := {| name := None; description := None; tags := ∅; arn := None |};
     planned := a; merged := a |}.

(** The configuration of the spec's scenario. *)
Definition my_ns : Attrs :=
  {| name := Some "my-ns"; description := Some "d";
     tags := {[ "env" := "prod" ]}; arn := None |}.

(** A configuration with a reserved tag key. *)
Definition reserved : Attrs :=
  {| name := Some "my-ns"; description := Some "d";
     tags := {[ "aws:cloudformation:stack-name" := "s"; "env" := "prod" ]};
     arn := None |}.

(** The remote side and the resource data once [my_ns] is created. *)
Definition created : Env world :=
  (run (Create meta) (start empty (fresh my_ns))).2.

(** A resource whose namespace is gone from the remote side. *)
Definition stale : ResourceData :=
  {| identity := "ns-gone"; state := my_ns; planned := my_ns; merged := my_ns |}.

(** The created resource with a change of tags planned. *)
Definition retagged : ResourceData :=
  {| identity := identity (data created);
     state := merged (data created);
     planned := {| name := name (merged (data created));
                   description := description (merged (data created));
                   tags := {[ "env" := "staging" ]};
                   arn := arn (merged (data created)) |};
     merged := {| name := name (merged (data created));
                  description := description (merged (data created));
                  tags := {[ "env" := "staging" ]};
                  arn := arn (merged (data created)) |} |}.

(** A remote side with a namespace whose tags cannot be listed. *)
Definition untagged : world :=
  {| namespaces :=
       {[ "ns-1" := {| ns_Arn := Some "arn:ns-1"; ns_Name := Some "other";
                       ns_Description := None |} ]};
     tagstore := ∅; operations := ∅; issued := 0 |}.

Definition ns_1 : ResourceData :=
  {| identity := "ns-1"; state := my_ns; planned := my_ns; merged := my_ns |}.

End CloudMap.

(** ** Reading a trace *)

(** [errors.Unwrap]: the cause an error wraps, if it wraps one. *)
Definition Unwrap (e : error) : option error :=
  match e with
  | Wrapf _ cause => Some cause
  | _ => None
  end.

(** The calls that only read from the remote side. *)
Definition is_read_only (c : Call) : bool :=
  match c with
  | GetNamespaceCall _ | ListTagsCall _ => true
  | _ => false
  end.

(** The calls Create may have made when it returns: the create call, then
    the waiter, then the fetch, then the tag listing, stopping anywhere
    after the first. *)
Definition Create_trace_shape (tr : list Call) : bool :=
  match tr with
  | [CreateHttpNamespaceCall _]
  | [CreateHttpNamespaceCall _; OperationSuccessCall _]
  | [CreateHttpNamespaceCall _; OperationSuccessCall _; GetNamespaceCall _]
  | [CreateHttpNamespaceCall _; OperationSuccessCall _; GetNamespaceCall _;
     ListTagsCall _] => true
  | _ => false
  end.

(** The calls Delete may have made when it returns: the delete call, then
    possibly the waiter. *)
Definition Delete_trace_shape (tr : list Call) : bool :=
  match tr with
  | [DeleteNamespaceCall _]
  | [DeleteNamespaceCall _; OperationSuccessCall _] => true
  | _ => false
  end.



(** The number of times the waiter is called. *)
Definition is_OperationSuccessCall (c : Call) : bool :=
  match c with
  | OperationSuccessCall _ => true
  | _ => false
  end.

Definition WaiterCalls (tr : list Call) : nat :=
  length (List.filter is_OperationSuccessCall tr).

(** The only collaborator call that takes a name or a description. *)
Definition carries_name_or_description (c : Call) : bool :=
  match c with
  | CreateHttpNamespaceCall _ => true
  | _ => false
  end.

(** The name and the description that Read leaves in the resource data
    read at [w]: those of the fetched namespace when the fetch returned one
    without error, and otherwise the ones the resource data holds. *)
Definition name_description_after_Read {W} (meta : AWSClient W) (w : W)
    (d : ResourceData) : option string * option string :=
  match (GetNamespace (sdconn meta) {| gni_Id := Some (d.Id d) |} w).1 with
  | (Some resp, None) =>
      match gno_Namespace resp with
      | Some ns => (ns_Name ns, ns_Description ns)
      | None => (name (merged d), description (merged d))
      end
  | _ => (name (merged d), description (merged d))
  end.

(** The error of the call on which Delete fails: the error of the delete
    call, or, when that call succeeded and named an operation, the error of
    the waiter. *)
Definition Delete_failed_call_error {W} (meta : AWSClient W) (w : W)
    (d : ResourceData) : option error :=
  let '((output, err), w1) :=
    DeleteNamespace (sdconn meta) {| dni_Id := Some (d.Id d) |} w in
  match err with
  | Some e => Some e
  | None =>
      match output ≫= dno_OperationId with
      | Some operationId => (OperationSuccess (sdconn meta) operationId w1).1.2
      | None => None
      end
  end.

(** A run that continues a callback which has already made the calls [tr]. *)
Definition after {W} (tr : list Call) (r : outcome * Env W) : outcome * Env W :=
  (r.1, {| world := world r.2; trace := tr ++ trace r.2; data := data r.2 |}).

(** No ignore rule: a nil configuration, or one without keys or prefixes. *)
Definition empty_ignore (config : option IgnoreConfig) : Prop :=
  match config with
  | None => True
  | Some c => Keys c = [] ∧ KeyPrefixes c = []
  end.

(** * Properties *)

Lemma prefix_app (sub post : string) : String.prefix sub (sub ++ post) = true.
Proof.
  induction sub as [|c sub IH].
  - by destruct post.
  - change (String.prefix (String c sub) (String c (sub ++ post)) = true).
    cbn. destruct (Ascii.ascii_dec c c); [exact IH | done].
Qed.

(** [strings.Contains] finds a text that is there. *)
Lemma Contains_app (pre sub post : string) :
  Contains (pre ++ sub ++ post) sub = true.
Proof.
  induction pre as [|c pre IH].
  - change (Contains (sub ++ post) sub = true).
    pose proof (prefix_app sub post) as Hp.
    destruct (sub ++ post); unfold Contains; fold Contains; by rewrite Hp.
  - change (Contains (String c (pre ++ sub ++ post)) sub = true).
    cbn. rewrite IH. apply orb_true_r.
Qed.

Ltac unfold_cb :=
  unfold run, resourceAwsServiceDiscoveryHttpNamespaceCreate,
    resourceAwsServiceDiscoveryHttpNamespaceRead,
    resourceAwsServiceDiscoveryHttpNamespaceUpdate,
    resourceAwsServiceDiscoveryHttpNamespaceDelete,
    mbind, Cb_bind, bind, call, local, get_d, update_d, update_d',
    return_, ret, deref, panic, start, after; cbn.

(** The tags of a request, read back as a mapping, are the mapping sent. *)
Lemma ServicediscoveryKeyValueTags_of_Tags (m : KeyValueTags) :
  keyvaluetags.ServicediscoveryKeyValueTags (keyvaluetags.ServicediscoveryTags m) = m.
Proof.
  unfold keyvaluetags.ServicediscoveryKeyValueTags, keyvaluetags.ServicediscoveryTags.
  rewrite <- list_fmap_compose.
  rewrite <- (list_to_map_to_list m) at 2. f_equal.
  induction (map_to_list m) as [|[k v] l IH]; [done|].
  cbn. by rewrite IH.
Qed.

Lemma IgnoreAws_idemp (m : KeyValueTags) :
  keyvaluetags.IgnoreAws (keyvaluetags.IgnoreAws m) = keyvaluetags.IgnoreAws m.
Proof.
  unfold keyvaluetags.IgnoreAws, keyvaluetags.IgnorePrefixes.
  apply map_filter_id. intros k v Hkv.
  apply map_lookup_filter_Some in Hkv as [_ Hkv]. exact Hkv.
Qed.

(** A mapping without reserved keys passes [IgnoreAws] unchanged. *)
Lemma IgnoreAws_id (m : KeyValueTags) :
  (∀ k v, m !! k = Some v → String.prefix keyvaluetags.AwsTagKeyPrefix k = false) →
  keyvaluetags.IgnoreAws m = m.
Proof.
  intros Hm. unfold keyvaluetags.IgnoreAws, keyvaluetags.IgnorePrefixes.
  apply map_filter_id. intros k v Hkv. cbn. by rewrite (Hm k v Hkv).
Qed.

Lemma IgnoreConfig_empty (config : option IgnoreConfig) (m : KeyValueTags) :
  empty_ignore config → keyvaluetags.IgnoreConfig config m = m.
Proof.
  destruct config as [[keys prefixes]|]; cbn; [|done].
  intros [-> ->]. unfold keyvaluetags.Ignore, keyvaluetags.IgnorePrefixes.
  rewrite !map_filter_id; [done| |]; intros k v _; cbn; [done|].
  apply not_elem_of_nil.
Qed.

(** Use what is known about the answer to the next call or test. *)
Ltac answer H := unfold mbind in H; cbn in H; rewrite H; cbn.

(** Case analysis on the next thing the program looks at. *)
Ltac next_case :=
  match goal with
  | |- context [match ?x with _ => _ end] =>
      lazymatch x with
      | context [match _ with _ => _ end] => fail
      | _ => destruct x eqn:?; cbn
      end
  end.

Section Properties.
Context {W : Type}.
Variable meta : AWSClient W.
Let conn := sdconn meta.

(** Read does not depend on the calls made before it. *)
Lemma run_Read_after (w : W) (tr : list Call) (d : ResourceData) :
  run (Read meta) {| world := w; trace := tr; data := d |}
  = after tr (run (Read meta) (start w d)).
Proof.
  unfold_cb.
  repeat next_case; simplify_eq/=; rewrite <- ?app_assoc; reflexivity.
Qed.

(** The identity after Read: cleared when the fetch reports not-found,
    kept otherwise. *)
Lemma Read_identity (w : W) (d : ResourceData) :
  d.Id (data (run (Read meta) (start w d)).2)
  = if isAWSErr (GetNamespace conn {| gni_Id := Some (d.Id d) |} w).1.2
         ErrCodeNamespaceNotFound ""
    then "" else d.Id d.
Proof.
  unfold_cb. fold conn.
  destruct (GetNamespace conn _ w) as [[resp [e|]] w1]; cbn.
  - destruct (isAWSErr_of e _ _); reflexivity.
  - repeat next_case; reflexivity.
Qed.


(** Delete never writes to the resource data. *)
Lemma Delete_data (w : W) (d : ResourceData) :
  data (run (Delete meta) (start w d)).2 = d.
Proof. unfold_cb. repeat next_case; reflexivity. Qed.

(** C1: when Read's fetch of the namespace fails with the remote API's
    not-found error, Read returns without error and the identity of the
    resource is the empty string afterwards, whatever it was; nothing else
    of the resource data is written and no further call is made. *)
Theorem Read_not_found_clears_identity
    (w : W) (d : ResourceData)
    (resp : option GetNamespaceOutput) (err : option error) (w' : W) :
  GetNamespace conn {| gni_Id := Some (d.Id d) |} w = ((resp, err), w') →
  isAWSErr err ErrCodeNamespaceNotFound "" = true →
  run (Read meta) (start w d)
  = (Done None,
     {| world := w';
        trace := [GetNamespaceCall {| gni_Id := Some (d.Id d) |}];
        data := {| identity := ""; state := state d; planned := planned d;
                   merged := merged d |} |})
  ∧ d.Id (data (run (Read meta) (start w d)).2) = "".
Proof.
  intros Hget Hnf.
  match goal with |- ?lhs = ?rhs ∧ _ => assert (Hrun : lhs = rhs) end.
  { unfold_cb. fold conn. rewrite Hget. cbn.
    destruct err as [e|]; [|discriminate]. rewrite Hnf. reflexivity. }
  split; [exact Hrun | by rewrite Hrun].
Qed.

(** C2: when the remote delete call returns the not-found error, Delete
    returns without error, having made that one call; so a second
    Delete of the same resource, issued where the remote side reports
    not-found, does not fail, whatever the first one did. *)
Theorem Delete_not_found_is_success
    (w : W) (d : ResourceData)
    (output : option DeleteNamespaceOutput) (err : option error) (w' : W) :
  DeleteNamespace conn {| dni_Id := Some (d.Id d) |} w = ((output, err), w') →
  isAWSErr err ErrCodeNamespaceNotFound "" = true →
  let success :=
    (Done None,
     {| world := w';
        trace := [DeleteNamespaceCall {| dni_Id := Some (d.Id d) |}];
        data := d |}) in
  run (Delete meta) (start w d) = success ∧
  ∀ w0 : W,
    world (run (Delete meta) (start w0 d)).2 = w →
    run (Delete meta) (start (world (run (Delete meta) (start w0 d)).2)
                      (data (run (Delete meta) (start w0 d)).2)) = success.
Proof.
  intros Hdel Hnf success.
  assert (Hone : run (Delete meta) (start w d) = success).
  { unfold_cb. fold conn. rewrite Hdel. cbn. rewrite Hnf. reflexivity. }
  split; [exact Hone|].
  intros w0 Hw0. rewrite Delete_data, Hw0. exact Hone.
Qed.

(** C3: when the create call succeeds and yields an operation ID but the
    waiter returns an error (the operation failed or timed out), Create
    returns an error wrapping the waiter's and leaves the resource data
    as it was: the identity is not set. *)
Theorem Create_waiter_failure_persists_nothing
    (w : W) (d : ResourceData) (uid : string) (w1 : W)
    (output : option CreateHttpNamespaceOutput) (w2 : W)
    (operationId : string)
    (operationOutput : option GetOperationOutput) (e : error) (w3 : W) :
  UniqueId conn w = (uid, w1) →
  CreateHttpNamespace conn (CreateHttpNamespaceInput_of d uid) w1
    = ((output, None), w2) →
  output ≫= cno_OperationId = Some operationId →
  OperationSuccess conn operationId w2 = ((operationOutput, Some e), w3) →
  run (Create meta) (start w d)
  = (Done (Some (Wrapf
       ("error waiting for Service Discovery HTTP Namespace (" ++ d.Get_name d
          ++ ") creation: " ++ Error e) e)),
     {| world := w3;
        trace := [CreateHttpNamespaceCall (CreateHttpNamespaceInput_of d uid);
                  OperationSuccessCall operationId];
        data := d |})
  ∧ d.Id (data (run (Create meta) (start w d)).2) = d.Id d.
Proof.
  intros Huid Hcreate Hop Hwait.
  match goal with |- ?lhs = ?rhs ∧ _ => assert (Hrun : lhs = rhs) end.
  { unfold_cb. fold conn. by answer Huid; answer Hcreate; answer Hop; answer Hwait. }
  split; [exact Hrun | by rewrite Hrun].
Qed.

(** C4: when the create call succeeds but the response is nil or has no
    operation ID, Create returns an error whose text contains the
    resource name; the create call is the only call made and the resource
    data is untouched. *)
Theorem Create_missing_operation_id
    (w : W) (d : ResourceData) (uid : string) (w1 : W)
    (output : option CreateHttpNamespaceOutput) (w2 : W) :
  UniqueId conn w = (uid, w1) →
  CreateHttpNamespace conn (CreateHttpNamespaceInput_of d uid) w1
    = ((output, None), w2) →
  output ≫= cno_OperationId = None →
  ∃ text : string,
    run (Create meta) (start w d)
    = (Done (Some (Errorf text)),
       {| world := w2;
          trace := [CreateHttpNamespaceCall (CreateHttpNamespaceInput_of d uid)];
          data := d |})
    ∧ Contains text (d.Get_name d) = true.
Proof.
  intros Huid Hcreate Hop.
  eexists. split.
  - unfold_cb. fold conn. by answer Huid; answer Hcreate; answer Hop.
  - apply Contains_app.
Qed.

(** Create, once the operation has reported a namespace: the identity is
    set and Read takes over. *)
Lemma Create_sets_identity_then_reads
    (w : W) (d : ResourceData) (uid : string) (w1 : W)
    (output : option CreateHttpNamespaceOutput) (w2 : W)
    (operationId : string)
    (operationOutput : option GetOperationOutput) (operation : Operation)
    (w3 : W) (namespaceID : option string) :
  UniqueId conn w = (uid, w1) →
  CreateHttpNamespace conn (CreateHttpNamespaceInput_of d uid) w1
    = ((output, None), w2) →
  output ≫= cno_OperationId = Some operationId →
  OperationSuccess conn operationId w2 = ((operationOutput, None), w3) →
  operationOutput ≫= goo_Operation = Some operation →
  Targets operation !! OperationTargetTypeNamespace = Some namespaceID →
  run (Create meta) (start w d)
  = after [CreateHttpNamespaceCall (CreateHttpNamespaceInput_of d uid);
           OperationSuccessCall operationId]
      (run (Read meta) (start w3 (d.SetId (StringValue namespaceID) d))).
Proof.
  intros Huid Hcreate Hop Hwait Hoperation Htarget.
  rewrite <- run_Read_after. unfold_cb. fold conn.
  answer Huid. answer Hcreate. answer Hop. answer Hwait.
  answer Hoperation. rewrite Htarget. reflexivity.
Qed.

(** Update is the tag branch followed by Read. *)
Lemma Update_run (w : W) (d : ResourceData) :
  (tags (state d) = tags (planned d) →
   run (Update meta) (start w d) = run (Read meta) (start w d))
  ∧ (tags (state d) ≠ tags (planned d) →
     run (Update meta) (start w d)
     = let sync := UpdateTagsCall (d.Get_arn d) (tags (state d)) (tags (planned d)) in
       let '(err, w') :=
         UpdateTags conn (d.Get_arn d) (tags (state d)) (tags (planned d)) w in
       match err with
       | Some e =>
           (Done (Some (Errorf
              ("error updating Service Discovery HTTP Namespace (" ++ d.Id d
                 ++ ") tags: " ++ Error e))),
            {| world := w'; trace := [sync]; data := d |})
       | None => after [sync] (run (Read meta) (start w' d))
       end).
Proof.
  assert (Hrun : run (Update meta) (start w d)
    = if bool_decide (tags (state d) = tags (planned d))
      then run (Read meta) (start w d)
      else
        let sync := UpdateTagsCall (d.Get_arn d) (tags (state d)) (tags (planned d)) in
        let '(err, w') :=
          UpdateTags conn (d.Get_arn d) (tags (state d)) (tags (planned d)) w in
        match err with
        | Some e =>
            (Done (Some (Errorf
               ("error updating Service Discovery HTTP Namespace (" ++ d.Id d
                  ++ ") tags: " ++ Error e))),
             {| world := w'; trace := [sync]; data := d |})
        | None => after [sync] (run (Read meta) (start w' d))
        end).
  { unfold run at 1, resourceAwsServiceDiscoveryHttpNamespaceUpdate.
    unfold mbind at 1 2, Cb_bind, bind at 1 2, get_d, start; cbn.
    unfold d.HasChange_tags, d.GetChange_tags.
    destruct (bool_decide (tags (state d) = tags (planned d))); cbn.
    - reflexivity.
    - unfold mbind, Cb_bind, bind, call; cbn. fold conn.
      destruct (UpdateTags conn _ _ _ w) as [[e|] w']; cbn; [reflexivity|].
      change (run (Read meta) {| world := w';
                          trace := [UpdateTagsCall (d.Get_arn d)
                                      (tags (state d)) (tags (planned d))];
                          data := d |}
              = after [UpdateTagsCall (d.Get_arn d)
                         (tags (state d)) (tags (planned d))]
                  (run (Read meta) (start w' d))).
      apply run_Read_after. }
  rewrite Hrun. split; intros E.
  - by rewrite bool_decide_eq_true_2.
  - by rewrite bool_decide_eq_false_2.
Qed.

(** C5, as amended: when the waiter reports success with an operation,
    and the operation's targets have no entry under the namespace target
    type, Create returns an error and leaves the resource data as it
    was; otherwise Create sets the identity to the ID found there and
    goes on with Read, so that at return the identity is that ID, unless
    Read's fetch reports not-found, in which case Read has cleared it. *)
Theorem Create_identity_from_operation_target
    (w : W) (d : ResourceData) (uid : string) (w1 : W)
    (output : option CreateHttpNamespaceOutput) (w2 : W)
    (operationId : string)
    (operationOutput : option GetOperationOutput) (operation : Operation)
    (w3 : W) :
  UniqueId conn w = (uid, w1) →
  CreateHttpNamespace conn (CreateHttpNamespaceInput_of d uid) w1
    = ((output, None), w2) →
  output ≫= cno_OperationId = Some operationId →
  OperationSuccess conn operationId w2 = ((operationOutput, None), w3) →
  operationOutput ≫= goo_Operation = Some operation →
  let calls := [CreateHttpNamespaceCall (CreateHttpNamespaceInput_of d uid);
                OperationSuccessCall operationId] in
  match Targets operation !! OperationTargetTypeNamespace with
  | None =>
      run (Create meta) (start w d)
      = (Done (Some (Errorf
           ("error creating Service Discovery HTTP Namespace (" ++ d.Get_name d
              ++ "): operation response missing Namespace ID"))),
         {| world := w3; trace := calls; data := d |})
  | Some namespaceID =>
      let nsid := StringValue namespaceID in
      run (Create meta) (start w d)
      = after calls (run (Read meta) (start w3 (d.SetId nsid d)))
      ∧ d.Id (data (run (Create meta) (start w d)).2)
        = if isAWSErr (GetNamespace conn {| gni_Id := Some nsid |} w3).1.2
               ErrCodeNamespaceNotFound ""
          then "" else nsid
  end.
Proof.
  intros Huid Hcreate Hop Hwait Hoperation calls.
  destruct (Targets operation !! OperationTargetTypeNamespace)
    as [namespaceID|] eqn:Htarget.
  - intros nsid.
    pose proof (Create_sets_identity_then_reads w d uid w1 output
      w2 operationId operationOutput operation w3 namespaceID
      Huid Hcreate Hop Hwait Hoperation Htarget) as Hrun.
    split; [exact Hrun|].
    rewrite Hrun. unfold after. cbn [snd data]. apply Read_identity.
  - unfold_cb. fold conn.
    answer Huid. answer Hcreate. answer Hop. answer Hwait.
    answer Hoperation. rewrite Htarget. reflexivity.
Qed.


(** C7: when the remote delete call succeeds, Delete calls the waiter
    with the response's operation ID and returns what the waiter
    found (its error, wrapped, or success); when the response is nil or
    has no operation ID it returns success with no waiter call. *)
Theorem Delete_waits_for_its_operation
    (w : W) (d : ResourceData)
    (output : option DeleteNamespaceOutput) (w1 : W) :
  DeleteNamespace conn {| dni_Id := Some (d.Id d) |} w = ((output, None), w1) →
  let delete := DeleteNamespaceCall {| dni_Id := Some (d.Id d) |} in
  run (Delete meta) (start w d)
  = match output ≫= dno_OperationId with
    | None => (Done None, {| world := w1; trace := [delete]; data := d |})
    | Some operationId =>
        let '((_, err), w2) := OperationSuccess conn operationId w1 in
        (Done match err with
              | Some e =>
                  Some (Wrapf
                    ("error waiting for Service Discovery HTTP Namespace ("
                       ++ d.Id d ++ ") deletion: " ++ Error e) e)
              | None => None
              end,
         {| world := w2;
            trace := [delete; OperationSuccessCall operationId];
            data := d |})
    end.
Proof.
  intros Hdel delete. unfold_cb. fold conn. answer Hdel.
  destruct output as [[[operationId|]]|]; cbn; try reflexivity.
  destruct (OperationSuccess conn operationId w1) as [[out [e|]] w2];
    reflexivity.
Qed.

(** C10: when the namespace fetch succeeds but the tag listing fails, Read
    returns an error, and the resource data already holds the fetched
    name, description and ARN; the tags, the identity and the other views
    are as they were. *)
Theorem Read_listing_failure_keeps_fetched_fields
    (w : W) (d : ResourceData)
    (resp : GetNamespaceOutput) (ns : Namespace) (w1 : W)
    (listed : KeyValueTags) (e : error) (w2 : W) :
  GetNamespace conn {| gni_Id := Some (d.Id d) |} w = ((Some resp, None), w1) →
  gno_Namespace resp = Some ns →
  ListTags conn (StringValue (ns_Arn ns)) w1 = ((listed, Some e), w2) →
  let r := run (Read meta) (start w d) in
  r.1 = Done (Some (Errorf
          ("error listing tags for resource (" ++ StringValue (ns_Arn ns)
             ++ "): " ++ Error e)))
  ∧ name (merged (data r.2)) = ns_Name ns
  ∧ description (merged (data r.2)) = ns_Description ns
  ∧ arn (merged (data r.2)) = Some (StringValue (ns_Arn ns))
  ∧ tags (merged (data r.2)) = tags (merged d)
  ∧ d.Id (data r.2) = d.Id d
  ∧ state (data r.2) = state d
  ∧ planned (data r.2) = planned d.
Proof.
  intros Hget Hns Hlist r. subst r. unfold_cb. fold conn.
  answer Hget. answer Hns. answer Hlist. done.
Qed.

(** C8, as amended: under an empty ignore list, the tags Read stores are
    the listed ones without the reserved keys (those starting with
    [aws:]).  Create sends the configured tags without the reserved keys,
    so when the listing returns what the request carried, Create ends
    with the configured tags minus the reserved keys; after an Update
    whose listing returns the new tags, likewise; and so does any later
    Read.  A mapping without reserved keys comes back unchanged
    ([IgnoreAws_id]). *)
Theorem tags_round_trip_without_reserved_keys :
  empty_ignore (IgnoreTagsConfig meta) →
  (∀ (w : W) (d : ResourceData) (uid : string) (w1 : W)
     (output : option CreateHttpNamespaceOutput) (w2 : W)
     (operationId : string) (operationOutput : option GetOperationOutput)
     (operation : Operation) (w3 : W) (namespaceID : option string)
     (resp : GetNamespaceOutput) (ns : Namespace) (w4 w5 : W),
     UniqueId conn w = (uid, w1) →
     CreateHttpNamespace conn (CreateHttpNamespaceInput_of d uid) w1
       = ((output, None), w2) →
     output ≫= cno_OperationId = Some operationId →
     OperationSuccess conn operationId w2 = ((operationOutput, None), w3) →
     operationOutput ≫= goo_Operation = Some operation →
     Targets operation !! OperationTargetTypeNamespace = Some namespaceID →
     GetNamespace conn {| gni_Id := Some (StringValue namespaceID) |} w3
       = ((Some resp, None), w4) →
     gno_Namespace resp = Some ns →
     ListTags conn (StringValue (ns_Arn ns)) w4
       = ((keyvaluetags.ServicediscoveryKeyValueTags
             (cni_Tags (CreateHttpNamespaceInput_of d uid)), None), w5) →
     (run (Create meta) (start w d)).1 = Done None
     ∧ tags (merged (data (run (Create meta) (start w d)).2))
       = keyvaluetags.IgnoreAws (d.Get_tags d))
  ∧ (∀ (w : W) (d : ResourceData) (w1 : W)
       (resp : GetNamespaceOutput) (ns : Namespace) (w2 w3 : W),
       tags (state d) ≠ tags (planned d) →
       UpdateTags conn (d.Get_arn d) (tags (state d)) (tags (planned d)) w
         = (None, w1) →
       GetNamespace conn {| gni_Id := Some (d.Id d) |} w1
         = ((Some resp, None), w2) →
       gno_Namespace resp = Some ns →
       ListTags conn (StringValue (ns_Arn ns)) w2
         = ((tags (planned d), None), w3) →
       (run (Update meta) (start w d)).1 = Done None
       ∧ tags (merged (data (run (Update meta) (start w d)).2))
         = keyvaluetags.IgnoreAws (tags (planned d)))
  ∧ (∀ (w : W) (d : ResourceData)
       (resp : GetNamespaceOutput) (ns : Namespace) (w1 : W)
       (listed : KeyValueTags) (w2 : W),
       GetNamespace conn {| gni_Id := Some (d.Id d) |} w
         = ((Some resp, None), w1) →
       gno_Namespace resp = Some ns →
       ListTags conn (StringValue (ns_Arn ns)) w1 = ((listed, None), w2) →
       (run (Read meta) (start w d)).1 = Done None
       ∧ tags (merged (data (run (Read meta) (start w d)).2))
         = keyvaluetags.IgnoreAws listed).
Proof.
  intros Hignore.
  assert (HRead : ∀ (w : W) (d : ResourceData)
       (resp : GetNamespaceOutput) (ns : Namespace) (w1 : W)
       (listed : KeyValueTags) (w2 : W),
       GetNamespace conn {| gni_Id := Some (d.Id d) |} w
         = ((Some resp, None), w1) →
       gno_Namespace resp = Some ns →
       ListTags conn (StringValue (ns_Arn ns)) w1 = ((listed, None), w2) →
       (run (Read meta) (start w d)).1 = Done None
       ∧ tags (merged (data (run (Read meta) (start w d)).2))
         = keyvaluetags.IgnoreAws listed).
  { intros w d resp ns w1 listed w2 Hget Hns Hlist.
    unfold_cb. fold conn. answer Hget. answer Hns. answer Hlist.
    by rewrite IgnoreConfig_empty. }
  split; [|split; [|exact HRead]].
  - intros w d uid w1 output w2 operationId operationOutput operation w3
      namespaceID resp ns w4 w5
      Huid Hcreate Hop Hwait Hoperation Htarget Hget Hns Hlist.
    pose proof (Create_sets_identity_then_reads w d uid w1 output
      w2 operationId operationOutput operation w3 namespaceID
      Huid Hcreate Hop Hwait Hoperation Htarget) as ->.
    unfold after; cbn [fst snd data].
    destruct (HRead w3 (d.SetId (StringValue namespaceID) d) resp ns w4 _ w5
                Hget Hns Hlist) as [-> ->].
    split; [done|].
    unfold CreateHttpNamespaceInput_of.
    destruct (d.GetOk_description d) as [v []]; cbn [cni_Tags];
      rewrite ServicediscoveryKeyValueTags_of_Tags; apply IgnoreAws_idemp.
  - intros w d w1 resp ns w2 w3 Hchange Hsync Hget Hns Hlist.
    destruct (Update_run w d) as [_ Hrun].
    rewrite (Hrun Hchange), Hsync.
    unfold after; cbn [fst snd data].
    exact (HRead w1 d resp ns w2 _ w3 Hget Hns Hlist).
Qed.

(** C9: name and description are fixed at creation.  The schema marks
    both as forcing a new resource.  Update is the tag branch followed by
    Read and nothing else: it writes neither field itself, so the name and
    the description it leaves are the ones Read leaves, or the ones it
    found when the tag update failed.  Read writes them only to mirror the
    namespace it fetched, Delete writes nothing, and no call that Update,
    Read or Delete makes carries a name or a description: the only such
    call is the create call, which only Create makes. *)
Theorem name_and_description_are_creation_only (w : W) (d : ResourceData) :
  let o := tags (state d) in
  let n := tags (planned d) in
  let sync := UpdateTagsCall (d.Get_arn d) o n in
  let fields (r : outcome * Env W) :=
    (name (merged (data r.2)), description (merged (data r.2))) in
  ForceNew <$> resourceAwsServiceDiscoveryHttpNamespace_Schema !! "name"
    = Some true
  ∧ ForceNew <$> resourceAwsServiceDiscoveryHttpNamespace_Schema !! "description"
    = Some true
  ∧ run (Update meta) (start w d)
    = (if bool_decide (o = n) then run (Read meta) (start w d)
       else
         let '(err, w') := UpdateTags conn (d.Get_arn d) o n w in
         match err with
         | Some e =>
             (Done (Some (Errorf
                ("error updating Service Discovery HTTP Namespace (" ++ d.Id d
                   ++ ") tags: " ++ Error e))),
              {| world := w'; trace := [sync]; data := d |})
         | None => after [sync] (run (Read meta) (start w' d))
         end)
  ∧ fields (run (Update meta) (start w d))
    = (if bool_decide (o = n) then name_description_after_Read meta w d
       else
         let '(err, w') := UpdateTags conn (d.Get_arn d) o n w in
         match err with
         | Some e => (name (merged d), description (merged d))
         | None => name_description_after_Read meta w' d
         end)
  ∧ fields (run (Read meta) (start w d)) = name_description_after_Read meta w d
  ∧ data (run (Delete meta) (start w d)).2 = d
  ∧ Forall (λ c, carries_name_or_description c = false)
      (trace (run (Update meta) (start w d)).2)
  ∧ Forall (λ c, carries_name_or_description c = false)
      (trace (run (Read meta) (start w d)).2)
  ∧ Forall (λ c, carries_name_or_description c = false)
      (trace (run (Delete meta) (start w d)).2).
Proof.
  intros o n sync fields.
  assert (HRead : ∀ w d, Forall (λ c, carries_name_or_description c = false)
                           (trace (run (Read meta) (start w d)).2)).
  { intros w' d'. unfold_cb. repeat next_case; repeat constructor. }
  assert (Hfields : ∀ w d, fields (run (Read meta) (start w d))
                           = name_description_after_Read meta w d).
  { intros w' d'. subst fields. unfold name_description_after_Read.
    unfold_cb. fold conn.
    destruct (GetNamespace conn _ w') as [[resp [e|]] w1]; cbn.
    - by destruct resp; destruct (isAWSErr_of e _ _).
    - destruct resp as [[[ns|]]|]; cbn; try reflexivity.
      repeat next_case; reflexivity. }
  assert (HUpdate : run (Update meta) (start w d)
    = (if bool_decide (o = n) then run (Read meta) (start w d)
       else
         let '(err, w') := UpdateTags conn (d.Get_arn d) o n w in
         match err with
         | Some e =>
             (Done (Some (Errorf
                ("error updating Service Discovery HTTP Namespace (" ++ d.Id d
                   ++ ") tags: " ++ Error e))),
              {| world := w'; trace := [sync]; data := d |})
         | None => after [sync] (run (Read meta) (start w' d))
         end)).
  { destruct (Update_run w d) as [Heq Hne]. subst o n sync.
    case_bool_decide; [by apply Heq | by apply Hne]. }
  split; [by vm_compute|]. split; [by vm_compute|].
  split; [exact HUpdate|].
  split; [|split; [apply Hfields|split; [apply Delete_data|]]].
  - rewrite HUpdate. destruct (bool_decide (o = n)); [apply Hfields|].
    destruct (UpdateTags conn _ o n w) as [[e|] w']; [reflexivity|].
    apply (Hfields w' d).
  - split; [|split; [apply HRead|]].
    + rewrite HUpdate. destruct (bool_decide (o = n)); [apply HRead|].
      destruct (UpdateTags conn _ o n w) as [[e|] w']; cbn.
      * repeat constructor.
      * apply Forall_cons. split; [done|]. apply HRead.
    + unfold_cb. repeat next_case; repeat constructor.
Qed.

End Properties.

(** * Concrete runs on the in-memory remote side *)

(** The spec's scenario: Create of [my-ns] with description [d] and tags
    [env = prod]. *)
Example Create_scenario :
  let r := run (Create CloudMap.meta)
             (start CloudMap.empty (CloudMap.fresh CloudMap.my_ns)) in
  r.1 = Done None
  ∧ trace r.2
    = [CreateHttpNamespaceCall
         {| cni_Name := Some "my-ns"; cni_Description := Some "d";
            cni_Tags := [{| Key := "env"; Value := "prod" |}];
            cni_CreatorRequestId := Some "terraform-" |};
       OperationSuccessCall "op-terraform-";
       GetNamespaceCall {| gni_Id := Some "ns-my-ns" |};
       ListTagsCall "arn:aws:servicediscovery:namespace/ns-my-ns"]
  ∧ d.Id (data r.2) = "ns-my-ns"
  ∧ merged (data r.2)
    = {| name := Some "my-ns"; description := Some "d";
         tags := {[ "env" := "prod" ]};
         arn := Some "arn:aws:servicediscovery:namespace/ns-my-ns" |}.
Proof. by vm_compute. Qed.

(** Read of a resource whose namespace is gone: the identity [ns-gone]
    becomes the empty string. *)
Lemma Read_not_found_clears_identity_witness :
  isAWSErr (Some CloudMap.NotFound) ErrCodeNamespaceNotFound "" = true
  ∧ d.Id CloudMap.stale = "ns-gone"
  ∧ (run (Read CloudMap.meta) (start CloudMap.empty CloudMap.stale)).1 = Done None
  ∧ d.Id (data (run (Read CloudMap.meta)
                  (start CloudMap.empty CloudMap.stale)).2) = "".
Proof.
  destruct (Read_not_found_clears_identity CloudMap.meta CloudMap.empty
              CloudMap.stale None (Some CloudMap.NotFound) CloudMap.empty
              eq_refl eq_refl) as [Hrun Hid].
  split; [reflexivity|]. split; [reflexivity|].
  split; [by rewrite Hrun | exact Hid].
Defined.

(** Delete of the created namespace, twice: the second finds it gone. *)
Lemma Delete_not_found_is_success_witness :
  let first := run (Delete CloudMap.meta)
                 (start (world CloudMap.created) (data CloudMap.created)) in
  first.1 = Done None
  ∧ run (Delete CloudMap.meta) (start (world first.2) (data first.2))
    = (Done None,
       {| world := world first.2;
          trace := [DeleteNamespaceCall {| dni_Id := Some "ns-my-ns" |}];
          data := data CloudMap.created |}).
Proof.
  intros first. split; [by vm_compute|].
  refine (proj2 (Delete_not_found_is_success CloudMap.meta (world first.2)
            (data CloudMap.created) None (Some CloudMap.NotFound) (world first.2)
            _ _) (world CloudMap.created) _);
    by vm_compute.
Defined.

(** Create against a waiter that reports failure. *)
Lemma Create_waiter_failure_persists_nothing_witness :
  (run (Create CloudMap.failing) (start CloudMap.empty (CloudMap.fresh CloudMap.my_ns))).1
  = Done (Some (Wrapf
      "error waiting for Service Discovery HTTP Namespace (my-ns) creation: operation status: FAIL"
      (OtherError "operation status: FAIL")))
  ∧ d.Id (data (run (Create CloudMap.failing)
                  (start CloudMap.empty (CloudMap.fresh CloudMap.my_ns))).2) = "".
Proof.
  pose proof (Create_waiter_failure_persists_nothing CloudMap.failing
    CloudMap.empty (CloudMap.fresh CloudMap.my_ns)
    (CloudMap.uniqueId CloudMap.empty).1 (CloudMap.uniqueId CloudMap.empty).2
    _ _ "op-terraform-" None (OtherError "operation status: FAIL") _
    eq_refl eq_refl eq_refl eq_refl) as [Hrun Hid].
  split; [by rewrite Hrun | exact Hid].
Defined.

(** Create against a create call that yields no operation ID. *)
Lemma Create_missing_operation_id_witness :
  ∃ text : string,
    (run (Create CloudMap.silent) (start CloudMap.empty (CloudMap.fresh CloudMap.my_ns))).1
    = Done (Some (Errorf text))
    ∧ Contains text "my-ns" = true
    ∧ length (trace (run (Create CloudMap.silent)
                       (start CloudMap.empty (CloudMap.fresh CloudMap.my_ns))).2) = 1.
Proof.
  destruct (Create_missing_operation_id CloudMap.silent
    CloudMap.empty (CloudMap.fresh CloudMap.my_ns)
    (CloudMap.uniqueId CloudMap.empty).1 (CloudMap.uniqueId CloudMap.empty).2
    _ _ eq_refl eq_refl eq_refl) as (text & Hrun & Hname).
  exists text. rewrite Hrun. repeat split. exact Hname.
Defined.

(** Create of the spec's scenario: the operation reports [ns-my-ns], Read
    finds it, and the identity is that ID. *)
Lemma Create_identity_from_operation_target_witness :
  let r := run (Create CloudMap.meta) (start CloudMap.empty (CloudMap.fresh CloudMap.my_ns)) in
  r.1 = Done None ∧ d.Id (data r.2) = "ns-my-ns".
Proof.
  pose proof (Create_identity_from_operation_target CloudMap.meta
    CloudMap.empty (CloudMap.fresh CloudMap.my_ns)
    (CloudMap.uniqueId CloudMap.empty).1 (CloudMap.uniqueId CloudMap.empty).2
    _ _ "op-terraform-" _
    {| Targets := {[ OperationTargetTypeNamespace := Some "ns-my-ns" ]} |} _
    eq_refl eq_refl eq_refl eq_refl eq_refl) as H.
  change (Targets _ !! OperationTargetTypeNamespace) with (Some (Some "ns-my-ns")) in H.
  destruct H as [Hrun Hid].
  split; [by vm_compute | exact Hid].
Defined.

(** The operation reports a namespace that the remote side does not show
    yet: Create returns without error and the identity is empty, not the
    ID the operation reported. *)
Lemma Create_identity_cleared_by_Read :
  let r := run (Create CloudMap.lagging) (start CloudMap.empty (CloudMap.fresh CloudMap.my_ns)) in
  trace r.2
  = [CreateHttpNamespaceCall
       (CreateHttpNamespaceInput_of (CloudMap.fresh CloudMap.my_ns) "terraform-");
     OperationSuccessCall "op-terraform-";
     GetNamespaceCall {| gni_Id := Some "ns-my-ns" |}]
  ∧ OperationSuccess (sdconn CloudMap.lagging) "op-terraform-" (world r.2)
    = ((Some {| goo_Operation :=
                  Some {| Targets := {[ OperationTargetTypeNamespace := Some "ns-my-ns" ]} |} |},
        None), world r.2)
  ∧ r.1 = Done None
  ∧ d.Id (data r.2) = ""
  ∧ d.Id (data r.2) ≠ "ns-my-ns".
Proof. by vm_compute. Qed.

(** Delete of the created namespace: the response names an operation and
    the waiter is called with it. *)
Lemma Delete_waits_for_its_operation_witness :
  run (Delete CloudMap.meta) (start (world CloudMap.created) (data CloudMap.created))
  = (Done None,
     {| world := (CloudMap.deleteNamespace {| dni_Id := Some "ns-my-ns" |}
                    (world CloudMap.created)).2;
        trace := [DeleteNamespaceCall {| dni_Id := Some "ns-my-ns" |};
                  OperationSuccessCall "op-delete-ns-my-ns"];
        data := data CloudMap.created |}).
Proof.
  rewrite (Delete_waits_for_its_operation CloudMap.meta (world CloudMap.created)
             (data CloudMap.created)
             (Some {| dno_OperationId := Some "op-delete-ns-my-ns" |})
             (CloudMap.deleteNamespace {| dni_Id := Some "ns-my-ns" |}
                (world CloudMap.created)).2);
    by vm_compute.
Defined.

(** Read of a namespace whose tags cannot be listed. *)
Lemma Read_listing_failure_keeps_fetched_fields_witness :
  let r := run (Read CloudMap.meta) (start CloudMap.untagged CloudMap.ns_1) in
  r.1 = Done (Some (Errorf
          "error listing tags for resource (arn:ns-1): ResourceNotFoundException: no such resource"))
  ∧ name (merged (data r.2)) = Some "other"
  ∧ description (merged (data r.2)) = None
  ∧ arn (merged (data r.2)) = Some "arn:ns-1"
  ∧ tags (merged (data r.2)) = {[ "env" := "prod" ]}.
Proof.
  pose proof (Read_listing_failure_keeps_fetched_fields CloudMap.meta
    CloudMap.untagged CloudMap.ns_1
    {| gno_Namespace := Some {| ns_Arn := Some "arn:ns-1"; ns_Name := Some "other";
                                ns_Description := None |} |}
    {| ns_Arn := Some "arn:ns-1"; ns_Name := Some "other"; ns_Description := None |}
    CloudMap.untagged ∅
    (AwsError "ResourceNotFoundException" "no such resource") CloudMap.untagged
    eq_refl eq_refl eq_refl) as (Hr & Hname & Hdesc & Harn & Htags & _).
  repeat split; assumption.
Defined.

(** Tags without reserved keys: set by Create, changed by Update, and read
    again, they come back as they were set. *)
Lemma tags_round_trip_without_reserved_keys_witness :
  empty_ignore (IgnoreTagsConfig CloudMap.meta)
  ∧ tags (merged (data (run (Create CloudMap.meta)
                          (start CloudMap.empty (CloudMap.fresh CloudMap.my_ns))).2))
    = keyvaluetags.IgnoreAws {[ "env" := "prod" ]}
  ∧ tags (merged (data (run (Update CloudMap.meta)
                          (start (world CloudMap.created) CloudMap.retagged)).2))
    = keyvaluetags.IgnoreAws {[ "env" := "staging" ]}
  ∧ tags (merged (data (run (Read CloudMap.meta)
                          (start (world CloudMap.created) (data CloudMap.created))).2))
    = keyvaluetags.IgnoreAws {[ "env" := "prod" ]}.
Proof.
  destruct (tags_round_trip_without_reserved_keys CloudMap.meta I)
    as (HCreate & HUpdate & HRead).
  pose (ns := {| ns_Arn := Some "arn:aws:servicediscovery:namespace/ns-my-ns";
                 ns_Name := Some "my-ns"; ns_Description := Some "d" |}).
  pose (resp := {| gno_Namespace := Some ns |}).
  split; [exact I|]. split; [|split].
  - pose (d0 := CloudMap.fresh CloudMap.my_ns).
    pose (u := CloudMap.uniqueId CloudMap.empty).
    pose (c := CloudMap.createHttpNamespace (CreateHttpNamespaceInput_of d0 u.1) u.2).
    refine (proj2 (HCreate CloudMap.empty d0 u.1 u.2 c.1.1 c.2 "op-terraform-"
      (CloudMap.operationSuccess "op-terraform-" c.2).1.1
      {| Targets := {[ OperationTargetTypeNamespace := Some "ns-my-ns" ]} |} c.2
      (Some "ns-my-ns") resp ns c.2 c.2 _ _ _ _ _ _ _ _ _));
      subst ns resp d0 u c; vm_compute; reflexivity.
  - pose (w1 := (CloudMap.updateTags "arn:aws:servicediscovery:namespace/ns-my-ns"
         {[ "env" := "prod" ]} {[ "env" := "staging" ]} (world CloudMap.created)).2).
    refine (proj2 (HUpdate (world CloudMap.created) CloudMap.retagged
      w1 resp ns w1 w1 _ _ _ _ _)); subst ns resp w1.
    + intros E. apply (f_equal (λ m : KeyValueTags, m !! "env")) in E.
      vm_compute in E. discriminate E.
    + vm_compute; reflexivity.
    + vm_compute; reflexivity.
    + vm_compute; reflexivity.
    + vm_compute; reflexivity.
  - refine (proj2 (HRead (world CloudMap.created) (data CloudMap.created)
      resp ns (world CloudMap.created) {[ "env" := "prod" ]}
      (world CloudMap.created) _ _ _)); subst ns resp; vm_compute; reflexivity.
Defined.

(** A configured tag with a reserved key: the remote side keeps every tag
    it is sent and lists them faithfully, the ignore list is empty, and yet
    the tags after Create, and after a further Read, are not the configured
    ones: the reserved key is missing. *)
Lemma reserved_tags_do_not_round_trip :
  let d0 := CloudMap.fresh CloudMap.reserved in
  let r := run (Create CloudMap.meta) (start CloudMap.empty d0) in
  let r' := run (Read CloudMap.meta) (start (world r.2) (data r.2)) in
  empty_ignore (IgnoreTagsConfig CloudMap.meta)
  ∧ r.1 = Done None
  ∧ tags (merged (data r.2)) !! "aws:cloudformation:stack-name" = None
  ∧ r'.1 = Done None
  ∧ tags (merged (data r'.2)) !! "aws:cloudformation:stack-name" = None
  ∧ tags (merged (data r'.2)) !! "env" = Some "prod"
  ∧ d.Get_tags d0 !! "aws:cloudformation:stack-name" = Some "s"
  ∧ tags (merged (data r'.2)) ≠ d.Get_tags d0.
Proof.
  intros d0 r r'.
  assert (Hlost : tags (merged (data r'.2)) !! "aws:cloudformation:stack-name" = None)
    by (vm_compute; reflexivity).
  assert (Hset : d.Get_tags d0 !! "aws:cloudformation:stack-name" = Some "s")
    by (vm_compute; reflexivity).
  split; [exact I|].
  split; [vm_compute; reflexivity|].
  split; [vm_compute; reflexivity|].
  split; [vm_compute; reflexivity|].
  split; [exact Hlost|].
  split; [vm_compute; reflexivity|].
  split; [exact Hset|].
  intros E. rewrite E, Hset in Hlost. discriminate Hlost.
Qed.

(** * Further behaviour of the callbacks *)

Lemma append_assoc (a b c : string) : (a ++ b) ++ c = a ++ b ++ c.
Proof.
  induction a as [|x a IH]; [done|].
  change (String x ((a ++ b) ++ c) = String x (a ++ b ++ c)). by rewrite IH.
Qed.

Lemma append_nil_r (a : string) : a ++ "" = a.
Proof.
  induction a as [|x a IH]; [done|].
  change (String x (a ++ "") = String x a). by rewrite IH.
Qed.

(** [strings.Contains] finds a text at the end. *)
Lemma Contains_suffix (pre sub : string) : Contains (pre ++ sub) sub = true.
Proof. rewrite <- (append_nil_r sub) at 1. apply Contains_app. Qed.

#[local] Arguments Contains : simpl never.

Section Behaviour.
Context {W : Type}.
Variable meta : AWSClient W.
Let conn := sdconn meta.

(** Read, when the fetch fails with an error that is not the not-found
    error: Read returns an error naming the identity and the cause, after
    that one call, and the resource data, its identity included, is as it
    was. *)
Theorem Read_fetch_error_keeps_identity
    (w : W) (d : ResourceData)
    (resp : option GetNamespaceOutput) (e : error) (w1 : W) :
  GetNamespace conn {| gni_Id := Some (d.Id d) |} w = ((resp, Some e), w1) →
  isAWSErr (Some e) ErrCodeNamespaceNotFound "" = false →
  run (Read meta) (start w d)
  = (Done (Some (Errorf
       ("error reading Service Discovery HTTP Namespace (" ++ d.Id d ++ "): "
          ++ Error e))),
     {| world := w1;
        trace := [GetNamespaceCall {| gni_Id := Some (d.Id d) |}];
        data := d |}).
Proof.
  intros Hget Hnf. unfold_cb. fold conn. answer Hget. by answer Hnf.
Qed.

(** Read, when the fetch and the tag listing both succeed: Read returns
    without error after these two calls; the name, the description and the
    ARN are the fetched ones, the tags are the listed ones after the
    reserved-key filter and the provider's ignore rules, and the identity,
    the prior state and the plan are as they were. *)
Theorem Read_success_refreshes_attributes
    (w : W) (d : ResourceData)
    (resp : GetNamespaceOutput) (ns : Namespace) (w1 : W)
    (listed : KeyValueTags) (w2 : W) :
  GetNamespace conn {| gni_Id := Some (d.Id d) |} w = ((Some resp, None), w1) →
  gno_Namespace resp = Some ns →
  ListTags conn (StringValue (ns_Arn ns)) w1 = ((listed, None), w2) →
  run (Read meta) (start w d)
  = (Done None,
     {| world := w2;
        trace := [GetNamespaceCall {| gni_Id := Some (d.Id d) |};
                  ListTagsCall (StringValue (ns_Arn ns))];
        data :=
          {| identity := identity d; state := state d; planned := planned d;
             merged :=
               {| name := ns_Name ns;
                  description := ns_Description ns;
                  tags := keyvaluetags.IgnoreConfig (IgnoreTagsConfig meta)
                            (keyvaluetags.IgnoreAws listed);
                  arn := Some (StringValue (ns_Arn ns)) |} |} |}).
Proof.
  intros Hget Hns Hlist. unfold_cb. fold conn.
  answer Hget. answer Hns. by answer Hlist.
Qed.

(** Read, when the fetch returns no error but a nil output or an output
    without a namespace: Read dereferences it and panics, after that one
    call, with the resource data as it was. *)
Theorem Read_without_namespace_panics
    (w : W) (d : ResourceData) (resp : option GetNamespaceOutput) (w1 : W) :
  GetNamespace conn {| gni_Id := Some (d.Id d) |} w = ((resp, None), w1) →
  resp ≫= gno_Namespace = None →
  run (Read meta) (start w d)
  = (Crash,
     {| world := w1;
        trace := [GetNamespaceCall {| gni_Id := Some (d.Id d) |}];
        data := d |}).
Proof.
  intros Hget Hns. unfold_cb. fold conn. answer Hget.
  destruct resp as [[[ns|]]|]; [discriminate Hns| |]; reflexivity.
Qed.

(** Read only reads from the remote side: in every run its first call is
    the fetch of the namespace with the identity, it makes at most one
    more call, and every call is a fetch or a tag listing. *)
Theorem Read_makes_only_read_calls (w : W) (d : ResourceData) :
  let tr := trace (run (Read meta) (start w d)).2 in
  head tr = Some (GetNamespaceCall {| gni_Id := Some (d.Id d) |})
  ∧ (List.length tr <= 2)%nat
  ∧ Forall (λ c, is_read_only c = true) tr.
Proof.
  unfold_cb. repeat next_case; cbn; repeat split; try lia; repeat constructor.
Qed.

(** Read keeps the prior state and the plan in every run, so the change of
    tags that Update acts on is not affected by it; the identity after Read
    is the one before it or the empty one. *)
Theorem Read_keeps_state_and_plan (w : W) (d : ResourceData) :
  let r := run (Read meta) (start w d) in
  state (data r.2) = state d
  ∧ planned (data r.2) = planned d
  ∧ d.GetChange_tags (data r.2) = d.GetChange_tags d
  ∧ (d.Id (data r.2) = d.Id d ∨ d.Id (data r.2) = "").
Proof.
  unfold_cb. repeat next_case; cbn; repeat split; auto.
Qed.

(** What a successful refresh stores does not depend on what was stored
    before: two resource data with the same identity, read against the
    same remote side, get the same outcome and, when the fetch succeeded
    and Read returned without error, the same attributes. *)
Theorem Read_result_is_canonical (w : W) (d d' : ResourceData) :
  d.Id d = d.Id d' →
  (GetNamespace conn {| gni_Id := Some (d.Id d) |} w).1.2 = None →
  (run (Read meta) (start w d)).1 = Done None →
  (run (Read meta) (start w d')).1 = Done None
  ∧ world (run (Read meta) (start w d')).2 = world (run (Read meta) (start w d)).2
  ∧ trace (run (Read meta) (start w d')).2 = trace (run (Read meta) (start w d)).2
  ∧ merged (data (run (Read meta) (start w d')).2)
    = merged (data (run (Read meta) (start w d)).2).
Proof.
  intros Hid. unfold_cb. fold conn. unfold d.Id in *. rewrite <- Hid.
  destruct (GetNamespace conn _ w) as [[resp [e|]] w1]; cbn; [discriminate|].
  intros _. repeat next_case; cbn; intros; simplify_eq; done.
Qed.

(** Create, when the create call itself fails: Create returns an error
    that names the resource and wraps the cause; no other call is made and
    the resource data is as it was. *)
Theorem Create_call_failure_is_wrapped
    (w : W) (d : ResourceData) (uid : string) (w1 : W)
    (output : option CreateHttpNamespaceOutput) (e : error) (w2 : W) :
  UniqueId conn w = (uid, w1) →
  CreateHttpNamespace conn (CreateHttpNamespaceInput_of d uid) w1
    = ((output, Some e), w2) →
  run (Create meta) (start w d)
  = (Done (Some (Wrapf
       ("error creating Service Discovery HTTP Namespace (" ++ d.Get_name d
          ++ "): " ++ Error e) e)),
     {| world := w2;
        trace := [CreateHttpNamespaceCall (CreateHttpNamespaceInput_of d uid)];
        data := d |}).
Proof.
  intros Huid Hcreate. unfold_cb. fold conn. answer Huid. by answer Hcreate.
Qed.

(** Create, when the waiter returns no error but a nil output or an output
    without an operation: Create returns an error after the create call
    and the waiter call, and the resource data is as it was. *)
Theorem Create_missing_operation_information
    (w : W) (d : ResourceData) (uid : string) (w1 : W)
    (output : option CreateHttpNamespaceOutput) (w2 : W)
    (operationId : string)
    (operationOutput : option GetOperationOutput) (w3 : W) :
  UniqueId conn w = (uid, w1) →
  CreateHttpNamespace conn (CreateHttpNamespaceInput_of d uid) w1
    = ((output, None), w2) →
  output ≫= cno_OperationId = Some operationId →
  OperationSuccess conn operationId w2 = ((operationOutput, None), w3) →
  operationOutput ≫= goo_Operation = None →
  run (Create meta) (start w d)
  = (Done (Some (Errorf
       ("error creating Service Discovery HTTP Namespace (" ++ d.Get_name d
          ++ "): operation response missing Operation information"))),
     {| world := w3;
        trace := [CreateHttpNamespaceCall (CreateHttpNamespaceInput_of d uid);
                  OperationSuccessCall operationId];
        data := d |}).
Proof.
  intros Huid Hcreate Hop Hwait Hoperation. unfold_cb. fold conn.
  answer Huid. answer Hcreate. answer Hop. answer Hwait. by answer Hoperation.
Qed.

(** Create writes nothing before Read: in every run that returns with at
    most two calls made (Read's fetch was not reached), the resource data,
    its identity included, is as it was. *)
Theorem Create_writes_nothing_before_Read (w : W) (d : ResourceData) :
  (List.length (trace (run (Create meta) (start w d)).2) <= 2)%nat →
  data (run (Create meta) (start w d)).2 = d.
Proof.
  unfold_cb. repeat next_case; cbn; intros; try reflexivity; lia.
Qed.

(** Create makes its calls in a fixed order in every run: the create call
    with the request built from the resource data, then the waiter, then
    the fetch, then the tag listing; it may stop after any of them, and it
    never deletes and never asks for a change of tags. *)
Theorem Create_call_sequence (w : W) (d : ResourceData) :
  let tr := trace (run (Create meta) (start w d)).2 in
  head tr = Some (CreateHttpNamespaceCall
                    (CreateHttpNamespaceInput_of d (UniqueId conn w).1))
  ∧ Create_trace_shape tr = true.
Proof.
  unfold_cb. fold conn. repeat next_case; simplify_eq/=; done.
Qed.

(** The create request: the name is always sent, the request ID is the
    one drawn, and the description is sent exactly when it is set to a
    text other than the empty one, in which case that text is sent. *)
Theorem Create_request_fields (d : ResourceData) (uid : string) :
  let input := CreateHttpNamespaceInput_of d uid in
  cni_Name input = Some (StringValue (name (merged d)))
  ∧ cni_CreatorRequestId input = Some uid
  ∧ cni_Description input
    = match description (merged d) with
      | Some v => if decide (v = "") then None else Some v
      | None => None
      end.
Proof.
  unfold CreateHttpNamespaceInput_of, d.GetOk_description, d.Get_name.
  destruct (description (merged d)) as [v|]; cbn.
  - destruct (decide (v = "")) as [->|Hv]; cbn; [done|].
    by rewrite bool_decide_eq_false_2.
  - done.
Qed.

(** The tags of the create request: a tag is sent exactly when it is
    among the resource's tags and its key does not start with [aws:]; no
    key is sent twice. *)
Theorem Create_request_tags (d : ResourceData) (uid : string) :
  let sent := cni_Tags (CreateHttpNamespaceInput_of d uid) in
  (∀ k v : string,
     {| Key := k; Value := v |} ∈ sent
     ↔ d.Get_tags d !! k = Some v
       ∧ String.prefix keyvaluetags.AwsTagKeyPrefix k = false)
  ∧ NoDup (Key <$> sent).
Proof.
  assert (Hsent : cni_Tags (CreateHttpNamespaceInput_of d uid)
                  = keyvaluetags.ServicediscoveryTags
                      (keyvaluetags.IgnoreAws (d.Get_tags d))).
  { unfold CreateHttpNamespaceInput_of.
    by destruct (d.GetOk_description d) as [v []]. }
  cbn zeta. rewrite Hsent. unfold keyvaluetags.ServicediscoveryTags. split.
  - intros k v. rewrite list_elem_of_fmap. split.
    + intros ([k' v'] & Heq & Hin). simplify_eq/=.
      apply elem_of_map_to_list in Hin.
      unfold keyvaluetags.IgnoreAws, keyvaluetags.IgnorePrefixes in Hin.
      apply map_lookup_filter_Some in Hin as [Hin Hk]. cbn in Hk.
      split; [exact Hin|].
      rewrite andb_true_r in Hk. by apply negb_true_iff.
    + intros [Hin Hk]. exists (k, v). split; [done|].
      apply elem_of_map_to_list.
      unfold keyvaluetags.IgnoreAws, keyvaluetags.IgnorePrefixes.
      apply map_lookup_filter_Some. split; [exact Hin|]. cbn.
      by rewrite Hk.
  - rewrite <- list_fmap_compose.
    rewrite (list_fmap_ext _ fst); [apply NoDup_fst_map_to_list|].
    by intros i [k v] _.
Qed.

(** Delete, when the delete call fails with an error that is not the
    not-found error: Delete returns an error that names the identity and
    wraps the cause; the waiter is not called, whatever the output holds,
    and the resource data is as it was. *)
Theorem Delete_call_failure_is_wrapped
    (w : W) (d : ResourceData)
    (output : option DeleteNamespaceOutput) (e : error) (w1 : W) :
  DeleteNamespace conn {| dni_Id := Some (d.Id d) |} w = ((output, Some e), w1) →
  isAWSErr (Some e) ErrCodeNamespaceNotFound "" = false →
  run (Delete meta) (start w d)
  = (Done (Some (Wrapf
       ("error deleting Service Discovery HTTP Namespace (" ++ d.Id d ++ "): "
          ++ Error e) e)),
     {| world := w1;
        trace := [DeleteNamespaceCall {| dni_Id := Some (d.Id d) |}];
        data := d |}).
Proof.
  intros Hdel Hnf. unfold_cb. fold conn. answer Hdel. by answer Hnf.
Qed.

(** Delete in every run: it never writes to the resource data (the
    identity is not cleared, not even when the namespace is found gone),
    it never panics, and its calls are the delete call with the identity,
    followed by at most one waiter call. *)
Theorem Delete_leaves_resource_data (w : W) (d : ResourceData) :
  let r := run (Delete meta) (start w d) in
  data r.2 = d
  ∧ r.1 ≠ Crash
  ∧ head (trace r.2) = Some (DeleteNamespaceCall {| dni_Id := Some (d.Id d) |})
  ∧ Delete_trace_shape (trace r.2) = true.
Proof.
  unfold_cb. repeat next_case; done.
Qed.

(** Every error Delete returns names the identity in its text and wraps
    the error of the call that failed (the delete call, or the waiter when
    the delete call succeeded), whose text it contains. *)
Theorem Delete_errors_name_the_identity
    (w : W) (d : ResourceData) (e : error) :
  (run (Delete meta) (start w d)).1 = Done (Some e) →
  Contains (Error e) (d.Id d) = true
  ∧ ∃ cause : error,
      Delete_failed_call_error meta w d = Some cause
      ∧ Unwrap e = Some cause
      ∧ Contains (Error e) (Error cause) = true.
Proof.
  unfold Delete_failed_call_error. unfold_cb. fold conn.
  destruct (DeleteNamespace conn _ w) as [[output [de|]] w1]; cbn.
  - destruct (isAWSErr_of de _ _); cbn; intros He; simplify_eq/=.
    split; [apply Contains_app|]. exists de. split; [done|]. split; [done|].
    rewrite <- !append_assoc. apply Contains_suffix.
  - destruct output as [[[operationId|]]|]; cbn; try (intros He; discriminate He).
    destruct (OperationSuccess conn operationId w1) as [[out [we|]] w2]; cbn;
      intros He; simplify_eq/=.
    split; [apply Contains_app|]. exists we. split; [done|]. split; [done|].
    rewrite <- !append_assoc. apply Contains_suffix.
Qed.

(** Every error that Create returns before Read is reached (at most two
    calls made) names the resource in its text. *)
Theorem Create_errors_name_the_resource
    (w : W) (d : ResourceData) (e : error) :
  (run (Create meta) (start w d)).1 = Done (Some e) →
  (List.length (trace (run (Create meta) (start w d)).2) <= 2)%nat →
  Contains (Error e) (d.Get_name d) = true.
Proof.
  unfold_cb. repeat next_case; cbn; intros He Hlen; simplify_eq/=;
    try lia; apply Contains_app.
Qed.

(** Where Read panics, from any environment. *)
Lemma Read_panic_after_fetch (s e : Env W) :
  Read meta s = (Panic, e) →
  last (trace e)
  = Some (GetNamespaceCall {| gni_Id := Some (d.Id (data e)) |}).
Proof.
  unfold resourceAwsServiceDiscoveryHttpNamespaceRead,
    mbind, Cb_bind, bind, call, get_d, update_d, update_d', return_, ret,
    deref, panic; cbn.
  repeat next_case; intros; simplify_eq/=; apply last_snoc.
Qed.

(** A panic comes from Read's missing nil check only: when Read, Create or
    Update panics, the last call made is the fetch of the namespace with
    the identity the resource then has. *)
Theorem panic_only_after_fetch
    (cb : AWSClient W → Cb W Empty_set) (w : W) (d : ResourceData) :
  cb ∈ [Read; Create; Update] →
  (run (cb meta) (start w d)).1 = Crash →
  last (trace (run (cb meta) (start w d)).2)
  = Some (GetNamespaceCall
            {| gni_Id := Some (d.Id (data (run (cb meta) (start w d)).2)) |}).
Proof.
  intros Hcb.
  repeat (apply elem_of_cons in Hcb as [->|Hcb]);
    [| | |by apply elem_of_nil in Hcb];
    unfold_cb; repeat next_case; cbn; intros; simplify_eq/=;
    eauto using Read_panic_after_fetch.
Qed.

(** Create, when every call succeeds: Create returns without error after
    the four calls in order; the identity is the ID under the namespace
    target, and the attributes are what the fetch and the tag listing
    returned, not what was configured. *)
Theorem Create_success
    (w : W) (d : ResourceData) (uid : string) (w1 : W)
    (output : option CreateHttpNamespaceOutput) (w2 : W)
    (operationId : string) (operationOutput : option GetOperationOutput)
    (operation : Operation) (w3 : W) (namespaceID : option string)
    (resp : GetNamespaceOutput) (ns : Namespace) (w4 : W)
    (listed : KeyValueTags) (w5 : W) :
  UniqueId conn w = (uid, w1) →
  CreateHttpNamespace conn (CreateHttpNamespaceInput_of d uid) w1
    = ((output, None), w2) →
  output ≫= cno_OperationId = Some operationId →
  OperationSuccess conn operationId w2 = ((operationOutput, None), w3) →
  operationOutput ≫= goo_Operation = Some operation →
  Targets operation !! OperationTargetTypeNamespace = Some namespaceID →
  GetNamespace conn {| gni_Id := Some (StringValue namespaceID) |} w3
    = ((Some resp, None), w4) →
  gno_Namespace resp = Some ns →
  ListTags conn (StringValue (ns_Arn ns)) w4 = ((listed, None), w5) →
  run (Create meta) (start w d)
  = (Done None,
     {| world := w5;
        trace := [CreateHttpNamespaceCall (CreateHttpNamespaceInput_of d uid);
                  OperationSuccessCall operationId;
                  GetNamespaceCall {| gni_Id := Some (StringValue namespaceID) |};
                  ListTagsCall (StringValue (ns_Arn ns))];
        data :=
          {| identity := StringValue namespaceID;
             state := state d; planned := planned d;
             merged :=
               {| name := ns_Name ns;
                  description := ns_Description ns;
                  tags := keyvaluetags.IgnoreConfig (IgnoreTagsConfig meta)
                            (keyvaluetags.IgnoreAws listed);
                  arn := Some (StringValue (ns_Arn ns)) |} |} |}).
Proof.
  intros Huid Hcreate Hop Hwait Hoperation Htarget Hget Hns Hlist.
  rewrite (Create_sets_identity_then_reads meta w d uid w1 output w2
             operationId operationOutput operation w3 namespaceID
             Huid Hcreate Hop Hwait Hoperation Htarget).
  rewrite (Read_success_refreshes_attributes w3
             (d.SetId (StringValue namespaceID) d) resp ns w4 listed w5
             Hget Hns Hlist).
  reflexivity.
Qed.

(** Update, when the tags changed and every call succeeds: Update returns
    without error after the tag update, the fetch and the tag listing, in
    this order; the tag update is given the ARN the resource data held,
    and the attributes are then what the fetch and the listing returned. *)
Theorem Update_success
    (w : W) (d : ResourceData) (w1 : W)
    (resp : GetNamespaceOutput) (ns : Namespace) (w2 : W)
    (listed : KeyValueTags) (w3 : W) :
  tags (state d) ≠ tags (planned d) →
  UpdateTags conn (d.Get_arn d) (tags (state d)) (tags (planned d)) w
    = (None, w1) →
  GetNamespace conn {| gni_Id := Some (d.Id d) |} w1 = ((Some resp, None), w2) →
  gno_Namespace resp = Some ns →
  ListTags conn (StringValue (ns_Arn ns)) w2 = ((listed, None), w3) →
  run (Update meta) (start w d)
  = (Done None,
     {| world := w3;
        trace := [UpdateTagsCall (d.Get_arn d) (tags (state d)) (tags (planned d));
                  GetNamespaceCall {| gni_Id := Some (d.Id d) |};
                  ListTagsCall (StringValue (ns_Arn ns))];
        data :=
          {| identity := identity d; state := state d; planned := planned d;
             merged :=
               {| name := ns_Name ns;
                  description := ns_Description ns;
                  tags := keyvaluetags.IgnoreConfig (IgnoreTagsConfig meta)
                            (keyvaluetags.IgnoreAws listed);
                  arn := Some (StringValue (ns_Arn ns)) |} |} |}).
Proof.
  intros Hchange Hsync Hget Hns Hlist.
  destruct (Update_run meta w d) as [_ Hrun].
  rewrite (Hrun Hchange). fold conn. rewrite Hsync.
  rewrite (Read_success_refreshes_attributes w1 d resp ns w2 listed w3
             Hget Hns Hlist).
  reflexivity.
Qed.

End Behaviour.

(** * Concrete runs for the further behaviour *)

(** Read of a resource against a service that throttles. *)
Lemma Read_fetch_error_keeps_identity_witness :
  isAWSErr (Some CloudMap.Throttled) ErrCodeNamespaceNotFound "" = false
  ∧ run (Read CloudMap.throttled) (start CloudMap.empty CloudMap.stale)
    = (Done (Some (Errorf
         ("error reading Service Discovery HTTP Namespace (" ++ "ns-gone" ++ "): "
            ++ Error CloudMap.Throttled))),
       {| world := CloudMap.empty;
          trace := [GetNamespaceCall {| gni_Id := Some "ns-gone" |}];
          data := CloudMap.stale |}).
Proof.
  split; [reflexivity|].
  apply (Read_fetch_error_keeps_identity CloudMap.throttled CloudMap.empty
           CloudMap.stale None CloudMap.Throttled CloudMap.empty);
    reflexivity.
Defined.

(** Read of the created namespace under a provider that ignores [env]:
    the listed tag is not stored. *)
Lemma Read_success_refreshes_attributes_witness :
  let r := run (Read CloudMap.ignoring)
             (start (world CloudMap.created) (data CloudMap.created)) in
  r.1 = Done None
  ∧ tags (merged (data r.2)) !! "env" = None
  ∧ name (merged (data r.2)) = Some "my-ns".
Proof.
  pose (ns := {| ns_Arn := Some "arn:aws:servicediscovery:namespace/ns-my-ns";
                 ns_Name := Some "my-ns"; ns_Description := Some "d" |}).
  eassert (H : run (Read CloudMap.ignoring)
                (start (world CloudMap.created) (data CloudMap.created)) = _).
  { refine (Read_success_refreshes_attributes CloudMap.ignoring
      (world CloudMap.created) (data CloudMap.created)
      {| gno_Namespace := Some ns |} ns (world CloudMap.created)
      {[ "env" := "prod" ]} (world CloudMap.created) _ _ _);
      subst ns; vm_compute; reflexivity. }
  cbn zeta. rewrite H. subst ns. split; [|split]; vm_compute; reflexivity.
Defined.

(** Read against a fetch that answers without a namespace. *)
Lemma Read_without_namespace_panics_witness :
  run (Read CloudMap.hollow) (start CloudMap.empty CloudMap.stale)
  = (Crash,
     {| world := CloudMap.empty;
        trace := [GetNamespaceCall {| gni_Id := Some "ns-gone" |}];
        data := CloudMap.stale |}).
Proof.
  apply (Read_without_namespace_panics CloudMap.hollow CloudMap.empty
           CloudMap.stale (Some {| gno_Namespace := None |}) CloudMap.empty);
    reflexivity.
Defined.

(** The created resource and the same resource with other tags planned
    and stored: Read gives both the same attributes. *)
Lemma Read_result_is_canonical_witness :
  merged (CloudMap.retagged) ≠ merged (data CloudMap.created)
  ∧ merged (data (run (Read CloudMap.meta)
                    (start (world CloudMap.created) CloudMap.retagged)).2)
    = merged (data (run (Read CloudMap.meta)
                      (start (world CloudMap.created) (data CloudMap.created))).2).
Proof.
  split.
  - intros E. apply (f_equal (λ a, tags a !! "env")) in E.
    vm_compute in E. discriminate E.
  - refine (proj2 (proj2 (proj2 (Read_result_is_canonical CloudMap.meta
      (world CloudMap.created) (data CloudMap.created) CloudMap.retagged
      _ _ _)))); vm_compute; reflexivity.
Defined.

(** Create against a service that throttles. *)
Lemma Create_call_failure_is_wrapped_witness :
  let r := run (Create CloudMap.throttled)
             (start CloudMap.empty (CloudMap.fresh CloudMap.my_ns)) in
  (Unwrap <$> match r.1 with Done err => err | Crash => None end)
  = Some (Some CloudMap.Throttled)
  ∧ List.length (trace r.2) = 1
  ∧ data r.2 = CloudMap.fresh CloudMap.my_ns.
Proof.
  pose (u := CloudMap.uniqueId CloudMap.empty).
  eassert (H : run (Create CloudMap.throttled)
                (start CloudMap.empty (CloudMap.fresh CloudMap.my_ns)) = _).
  { refine (Create_call_failure_is_wrapped CloudMap.throttled CloudMap.empty
      (CloudMap.fresh CloudMap.my_ns) u.1 u.2 None CloudMap.Throttled u.2 _ _);
      subst u; vm_compute; reflexivity. }
  cbn zeta. rewrite H. split; [|split]; vm_compute; reflexivity.
Defined.

(** Create against a waiter that answers without an operation. *)
Lemma Create_missing_operation_information_witness :
  let r := run (Create CloudMap.hollow)
             (start CloudMap.empty (CloudMap.fresh CloudMap.my_ns)) in
  r.1 = Done (Some (Errorf
          ("error creating Service Discovery HTTP Namespace (" ++ "my-ns"
             ++ "): operation response missing Operation information")))
  ∧ List.length (trace r.2) = 2
  ∧ data r.2 = CloudMap.fresh CloudMap.my_ns.
Proof.
  pose (d0 := CloudMap.fresh CloudMap.my_ns).
  pose (u := CloudMap.uniqueId CloudMap.empty).
  pose (c := CloudMap.createHttpNamespace (CreateHttpNamespaceInput_of d0 u.1) u.2).
  eassert (H : run (Create CloudMap.hollow) (start CloudMap.empty d0) = _).
  { refine (Create_missing_operation_information CloudMap.hollow CloudMap.empty
      d0 u.1 u.2 c.1.1 c.2 "op-terraform-" (Some {| goo_Operation := None |}) c.2
      _ _ _ _ _); subst d0 u c; vm_compute; reflexivity. }
  cbn zeta. fold d0. rewrite H. split; [|split]; vm_compute; reflexivity.
Defined.

(** Create against a failing waiter stops after two calls. *)
Lemma Create_writes_nothing_before_Read_witness :
  data (run (Create CloudMap.failing)
          (start CloudMap.empty (CloudMap.fresh CloudMap.my_ns))).2
  = CloudMap.fresh CloudMap.my_ns.
Proof.
  apply (Create_writes_nothing_before_Read CloudMap.failing).
  vm_compute. repeat constructor.
Defined.

(** Delete against a service that throttles, although its output names
    an operation. *)
Lemma Delete_call_failure_is_wrapped_witness :
  run (Delete CloudMap.throttled) (start CloudMap.empty CloudMap.stale)
  = (Done (Some (Wrapf
       ("error deleting Service Discovery HTTP Namespace (" ++ "ns-gone" ++ "): "
          ++ Error CloudMap.Throttled) CloudMap.Throttled)),
     {| world := CloudMap.empty;
        trace := [DeleteNamespaceCall {| dni_Id := Some "ns-gone" |}];
        data := CloudMap.stale |}).
Proof.
  apply (Delete_call_failure_is_wrapped CloudMap.throttled CloudMap.empty
           CloudMap.stale (Some {| dno_OperationId := Some "op-refused" |})
           CloudMap.Throttled CloudMap.empty);
    reflexivity.
Defined.

Lemma Delete_errors_name_the_identity_witness :
  ∃ e : error,
    (run (Delete CloudMap.throttled) (start CloudMap.empty CloudMap.stale)).1
    = Done (Some e)
    ∧ Contains (Error e) "ns-gone" = true
    ∧ Delete_failed_call_error CloudMap.throttled CloudMap.empty CloudMap.stale
      = Some CloudMap.Throttled
    ∧ Unwrap e = Some CloudMap.Throttled
    ∧ Contains (Error e) (Error CloudMap.Throttled) = true.
Proof.
  eexists. split; [reflexivity|].
  destruct (Delete_errors_name_the_identity CloudMap.throttled
              CloudMap.empty CloudMap.stale _ eq_refl)
    as (Hid & cause & Hcall & Hunwrap & Htext).
  assert (Hcause : cause = CloudMap.Throttled).
  { change (Some CloudMap.Throttled = Some cause) in Hcall. by injection Hcall. }
  subst cause. repeat split; assumption.
Defined.

Lemma Create_errors_name_the_resource_witness :
  ∃ e : error,
    (run (Create CloudMap.failing)
       (start CloudMap.empty (CloudMap.fresh CloudMap.my_ns))).1 = Done (Some e)
    ∧ Contains (Error e) "my-ns" = true.
Proof.
  eexists. split; [vm_compute; reflexivity|].
  refine (Create_errors_name_the_resource CloudMap.failing
            CloudMap.empty (CloudMap.fresh CloudMap.my_ns) _ _ _).
  - vm_compute; reflexivity.
  - vm_compute. repeat constructor.
Defined.

(** Update without a change of tags, against a fetch that answers without
    a namespace: the panic comes after the fetch. *)
Lemma panic_only_after_fetch_witness :
  let r := run (Update CloudMap.hollow) (start CloudMap.empty CloudMap.stale) in
  r.1 = Crash
  ∧ last (trace r.2) = Some (GetNamespaceCall {| gni_Id := Some (d.Id (data r.2)) |}).
Proof.
  split; [vm_compute; reflexivity|].
  apply (panic_only_after_fetch CloudMap.hollow Update).
  - apply elem_of_cons. right. apply elem_of_cons. right.
    apply elem_of_cons. by left.
  - vm_compute; reflexivity.
Defined.

(** Create of the spec's scenario, call by call. *)
Lemma Create_success_witness :
  let r := run (Create CloudMap.meta)
             (start CloudMap.empty (CloudMap.fresh CloudMap.my_ns)) in
  r.1 = Done None ∧ List.length (trace r.2) = 4 ∧ identity (data r.2) = "ns-my-ns".
Proof.
  pose (ns := {| ns_Arn := Some "arn:aws:servicediscovery:namespace/ns-my-ns";
                 ns_Name := Some "my-ns"; ns_Description := Some "d" |}).
  pose (d0 := CloudMap.fresh CloudMap.my_ns).
  pose (u := CloudMap.uniqueId CloudMap.empty).
  pose (c := CloudMap.createHttpNamespace (CreateHttpNamespaceInput_of d0 u.1) u.2).
  eassert (H : run (Create CloudMap.meta) (start CloudMap.empty d0) = _).
  { refine (Create_success CloudMap.meta CloudMap.empty d0 u.1 u.2 c.1.1 c.2
      "op-terraform-" (CloudMap.operationSuccess "op-terraform-" c.2).1.1
      {| Targets := {[ OperationTargetTypeNamespace := Some "ns-my-ns" ]} |} c.2
      (Some "ns-my-ns") {| gno_Namespace := Some ns |} ns c.2
      {[ "env" := "prod" ]} c.2 _ _ _ _ _ _ _ _ _);
      subst ns d0 u c; vm_compute; reflexivity. }
  cbn zeta. fold d0. rewrite H. split; [|split]; vm_compute; reflexivity.
Defined.

(** Update of the created namespace with [env = staging] planned. *)
Lemma Update_success_witness :
  let r := run (Update CloudMap.meta)
             (start (world CloudMap.created) CloudMap.retagged) in
  r.1 = Done None
  ∧ List.length (trace r.2) = 3
  ∧ tags (merged (data r.2)) !! "env" = Some "staging".
Proof.
  pose (ns := {| ns_Arn := Some "arn:aws:servicediscovery:namespace/ns-my-ns";
                 ns_Name := Some "my-ns"; ns_Description := Some "d" |}).
  pose (w1 := (CloudMap.updateTags "arn:aws:servicediscovery:namespace/ns-my-ns"
         {[ "env" := "prod" ]} {[ "env" := "staging" ]} (world CloudMap.created)).2).
  eassert (H : run (Update CloudMap.meta)
                (start (world CloudMap.created) CloudMap.retagged) = _).
  { refine (Update_success CloudMap.meta (world CloudMap.created)
      CloudMap.retagged w1 {| gno_Namespace := Some ns |} ns w1
      {[ "env" := "staging" ]} w1 _ _ _ _ _); subst ns w1.
    - intros E. apply (f_equal (λ m : KeyValueTags, m !! "env")) in E.
      vm_compute in E. discriminate E.
    - vm_compute; reflexivity.
    - vm_compute; reflexivity.
    - vm_compute; reflexivity.
    - vm_compute; reflexivity. }
  cbn zeta. rewrite H. subst ns w1. split; [|split]; vm_compute; reflexivity.
Defined.
